(** * Productly: the bottom-sheet controller ([components/ui/bottom-sheet.tsx])

    A shallow embedding of the [BottomSheet] component: the snap-offset
    table, the imperative handle ([open], [close], [snapToIndex]), the
    animation primitive [animateTo] and the four pan-responder handlers,
    followed by the properties of the gesture/snap state machine.

    Numbers.  In the state machine JavaScript numbers that carry pixels,
    fractions and velocities are read as exact rationals ([Q]); snap
    indices are integers ([Z]).  Of the constants a gesture value is
    compared with (0, 10, 20, 200, 0.7) only [0.7] is not a double; no
    double lies between the double nearest to 7/10 and 7/10 itself, so
    these comparisons agree with the source on every double.  The state
    machine carries what does not depend on rounding: control flow, index
    ranges, effects, visibility.  What does depend on it (the order of the
    computed offsets, which offset the nearest-snap loop picks) is stated
    over the module [Binary64], where the same source lines are embedded
    on binary64 numbers with the rounding of every operation.

    React.  Hook state ([useState], [useRef], the two [Animated.Value]s)
    lives in one record, [Sheet].  A closure created during a render sees
    the [useState] values of that render; [Scope] is what a render binds.
    The animation started by [Animated.parallel(...).start(cb)] and the
    timeout set by [open] are pending work held in the record and resolved
    by the events [AnimationSettles] and [TimerFires].

    Around the sheet.  The product store ([useProductsState]), the toast
    list ([ToastProvider]), the search filter of the catalogue screen and
    the validation and submit guard of the product form are embedded in
    the modules [Products], [Toasts] and [Catalog]. *)

From Stdlib Require Import QArith Qabs ZArith List Sorted Bool Lia Lqa.
From Stdlib Require String.
From Stdlib Require Floats.
Import ListNotations.

Local Open Scope Q_scope.

(** ** Comparisons of rationals as booleans *)

Definition Qltb (x y : Q) : bool := negb (Qle_bool y x).

(** ** Data model *)

(** The props the controller reads.  [onClose] and [onOpen] are optional
    in the source: the flag says whether the caller supplied one. *)
Record BottomSheetProps : Set := {
  snapPoints : list Q;
  enablePanDownToClose : bool;
  enableBackdropDismiss : bool;
  onClose : bool;
  onOpen : bool
}.

(** What leaves the component: lifecycle callbacks and haptic pulses. *)
Inductive Effect : Set := Haptic | OnOpen | OnClose.

Definition Effect_eq_dec (a b : Effect) : {a = b} + {a <> b}.
Proof. decide equality. Defined.

(** The completion callback handed to [animateTo]: none, the
    [() => triggerHaptic()] of [snapToIndex], or the
    [() => { setVisible(false); onClose?.() }] of [close]. *)
Inductive Completion : Set := CbNone | CbHaptic | CbClose.

(** [gesture.dx], [gesture.dy], [gesture.vy]. *)
Record Gesture : Set := { dx : Q; dy : Q; vy : Q }.

Record Sheet : Set := {
  translateY : Q;                       (* Animated.Value *)
  backdropOpacity : Q;                  (* Animated.Value *)
  lastOffset : Q;                       (* useRef *)
  visible : bool;                       (* useState *)
  currentSnapIndex : Z;                 (* useState *)
  isPanning : bool;                     (* useRef *)
  keyboardHeight : Q;                   (* useState *)
  animation : option (Q * Completion);  (* running Animated.parallel: toValue, cb *)
  timers : nat;                         (* pending timeouts set by open *)
  effects : list Effect                 (* emitted so far, oldest first *)
}.

(** The [useState] value a handler closes over when it is created. *)
Record Scope : Set := { sc_currentSnapIndex : Z }.

Definition render (s : Sheet) : Scope :=
  {| sc_currentSnapIndex := currentSnapIndex s |}.

(** Field updates. *)
Definition set_translateY (v : Q) (s : Sheet) : Sheet :=
  {| translateY := v; backdropOpacity := backdropOpacity s;
     lastOffset := lastOffset s; visible := visible s;
     currentSnapIndex := currentSnapIndex s; isPanning := isPanning s;
     keyboardHeight := keyboardHeight s; animation := animation s;
     timers := timers s; effects := effects s |}.

Definition set_backdropOpacity (v : Q) (s : Sheet) : Sheet :=
  {| translateY := translateY s; backdropOpacity := v;
     lastOffset := lastOffset s; visible := visible s;
     currentSnapIndex := currentSnapIndex s; isPanning := isPanning s;
     keyboardHeight := keyboardHeight s; animation := animation s;
     timers := timers s; effects := effects s |}.

Definition set_lastOffset (v : Q) (s : Sheet) : Sheet :=
  {| translateY := translateY s; backdropOpacity := backdropOpacity s;
     lastOffset := v; visible := visible s;
     currentSnapIndex := currentSnapIndex s; isPanning := isPanning s;
     keyboardHeight := keyboardHeight s; animation := animation s;
     timers := timers s; effects := effects s |}.

Definition setVisible (b : bool) (s : Sheet) : Sheet :=
  {| translateY := translateY s; backdropOpacity := backdropOpacity s;
     lastOffset := lastOffset s; visible := b;
     currentSnapIndex := currentSnapIndex s; isPanning := isPanning s;
     keyboardHeight := keyboardHeight s; animation := animation s;
     timers := timers s; effects := effects s |}.

Definition setCurrentSnapIndex (i : Z) (s : Sheet) : Sheet :=
  {| translateY := translateY s; backdropOpacity := backdropOpacity s;
     lastOffset := lastOffset s; visible := visible s;
     currentSnapIndex := i; isPanning := isPanning s;
     keyboardHeight := keyboardHeight s; animation := animation s;
     timers := timers s; effects := effects s |}.

Definition set_isPanning (b : bool) (s : Sheet) : Sheet :=
  {| translateY := translateY s; backdropOpacity := backdropOpacity s;
     lastOffset := lastOffset s; visible := visible s;
     currentSnapIndex := currentSnapIndex s; isPanning := b;
     keyboardHeight := keyboardHeight s; animation := animation s;
     timers := timers s; effects := effects s |}.

Definition setKeyboardHeight (h : Q) (s : Sheet) : Sheet :=
  {| translateY := translateY s; backdropOpacity := backdropOpacity s;
     lastOffset := lastOffset s; visible := visible s;
     currentSnapIndex := currentSnapIndex s; isPanning := isPanning s;
     keyboardHeight := h; animation := animation s;
     timers := timers s; effects := effects s |}.

Definition set_animation (a : option (Q * Completion)) (s : Sheet) : Sheet :=
  {| translateY := translateY s; backdropOpacity := backdropOpacity s;
     lastOffset := lastOffset s; visible := visible s;
     currentSnapIndex := currentSnapIndex s; isPanning := isPanning s;
     keyboardHeight := keyboardHeight s; animation := a;
     timers := timers s; effects := effects s |}.

Definition set_timers (n : nat) (s : Sheet) : Sheet :=
  {| translateY := translateY s; backdropOpacity := backdropOpacity s;
     lastOffset := lastOffset s; visible := visible s;
     currentSnapIndex := currentSnapIndex s; isPanning := isPanning s;
     keyboardHeight := keyboardHeight s; animation := animation s;
     timers := n; effects := effects s |}.

Definition emit (e : Effect) (s : Sheet) : Sheet :=
  {| translateY := translateY s; backdropOpacity := backdropOpacity s;
     lastOffset := lastOffset s; visible := visible s;
     currentSnapIndex := currentSnapIndex s; isPanning := isPanning s;
     keyboardHeight := keyboardHeight s; animation := animation s;
     timers := timers s; effects := effects s ++ [e] |}.

(** [cb?.()]: the call happens only when the callback was supplied. *)
Definition call_optional (supplied : bool) (e : Effect) (s : Sheet) : Sheet :=
  if supplied then emit e s else s.

(** [arr[i]] of JavaScript: [undefined] (here [None]) out of range. *)
Definition at_index (l : list Q) (i : Z) : option Q :=
  if (i <? 0)%Z then None else nth_error l (Z.to_nat i).

(** The outcome of running a piece of the source that may throw. *)
Inductive Outcome (A : Type) : Type :=
| Returns (a : A)
| Throws.
Arguments Returns {A} a.
Arguments Throws {A}.

(** The defaults of the destructured props: [snapPoints = [0.3, 0.6, 0.9]],
    [enablePanDownToClose = true], [enableBackdropDismiss = true]. *)
Definition default_props (with_onClose with_onOpen : bool) : BottomSheetProps :=
  {| snapPoints := [0.3; 0.6; 0.9];
     enablePanDownToClose := true;
     enableBackdropDismiss := true;
     onClose := with_onClose;
     onOpen := with_onOpen |}.

(** The same instance with another list of fractions. *)
Definition with_snapPoints (fs : list Q) (p : BottomSheetProps)
    : BottomSheetProps :=
  {| snapPoints := fs;
     enablePanDownToClose := enablePanDownToClose p;
     enableBackdropDismiss := enableBackdropDismiss p;
     onClose := onClose p;
     onOpen := onOpen p |}.

(** ** The product store ([useProductsState])

    The hook keeps the list in a [useState] and mirrors it in
    [AsyncStorage] under one key.  [JSON.stringify] and [JSON.parse] are
    parameters; a read or a write of the storage may fail, which the
    source catches and logs. *)

Module Products.
Import String.
Local Open Scope string_scope.

(** [Product] is declared in [types/product.type], outside the sources
    at hand; the fields are those [ProductService.createProduct] fills. *)
Record Product : Set := {
  id : string;
  name : string;
  price : Q;
  thumbnail : string
}.

(** [Partial<Product>]: a field is present or absent. *)
Record PartialProduct : Set := {
  new_id : option string;
  new_name : option string;
  new_price : option Q;
  new_thumbnail : option string
}.

Definition or_else {A : Type} (o : option A) (a : A) : A :=
  match o with Some v => v | None => a end.

(** [{ ...p, ...updated }] *)
Definition spread (p : Product) (updated : PartialProduct) : Product :=
  {| id := or_else (new_id updated) (id p);
     name := or_else (new_name updated) (name p);
     price := or_else (new_price updated) (price p);
     thumbnail := or_else (new_thumbnail updated) (thumbnail p) |}.

Record State : Set := {
  products : list Product;   (* useState *)
  loading : bool;            (* useState *)
  storage : option string    (* AsyncStorage, key "PRODUCTS" *)
}.

Definition setProducts (l : list Product) (s : State) : State :=
  {| products := l; loading := loading s; storage := storage s |}.

Definition setLoading (b : bool) (s : State) : State :=
  {| products := products s; loading := b; storage := storage s |}.

Definition setItem (v : string) (s : State) : State :=
  {| products := products s; loading := loading s; storage := Some v |}.

Section Hook.

Variable JSON_stringify : list Product -> string.
Variable JSON_parse : string -> Outcome (list Product).

(** The hook state of the first render, over what the device holds. *)
Definition mount (device : option string) : State :=
  {| products := []; loading := true; storage := device |}.

(** The effect of the first render.  [read_ok] is false when
    [AsyncStorage.getItem] rejects.  [if (stored)] fails on [null] and on
    the empty string; a text [JSON.parse] refuses lands in [catch]. *)
Definition load (read_ok : bool) (s : State) : State :=
  setLoading false
    (if read_ok then
       match storage s with
       | Some stored =>
           if String.eqb stored "" then s
           else match JSON_parse stored with
                | Returns l => setProducts l s
                | Throws => s
                end
       | None => s
       end
     else s).

(** [write_ok] is false when [AsyncStorage.setItem] rejects; the list in
    memory has been replaced by then. *)
Definition saveProducts (updated : list Product) (write_ok : bool)
    (s : State) : State :=
  let s := setProducts updated s in
  if write_ok then setItem (JSON_stringify updated) s else s.

(** The three callbacks close over [products] of the render that made
    them: [captured]. *)
Definition addProduct (captured : list Product) (product : Product)
    (write_ok : bool) (s : State) : State :=
  saveProducts (captured ++ [product]) write_ok s.

Definition updateProduct (captured : list Product) (i : string)
    (updated : PartialProduct) (write_ok : bool) (s : State) : State :=
  let newList :=
    map (fun p => if String.eqb (id p) i then spread p updated else p)
        captured in
  saveProducts newList write_ok s.

Definition deleteProduct (captured : list Product) (i : string)
    (write_ok : bool) (s : State) : State :=
  let newList := filter (fun p => negb (String.eqb (id p) i)) captured in
  saveProducts newList write_ok s.

Definition clearProducts (write_ok : bool) (s : State) : State :=
  saveProducts [] write_ok s.

End Hook.

(** Sample products. *)
Definition tea : Product :=
  {| id := "1"; name := "Tea"; price := 3; thumbnail := "tea.png" |}.
Definition mug : Product :=
  {| id := "2"; name := "Mug"; price := 7; thumbnail := "mug.png" |}.
Definition rename_to_chai : PartialProduct :=
  {| new_id := None; new_name := Some "Chai"; new_price := None;
     new_thumbnail := None |}.

(** A stand-in for the JSON functions, good for one list. *)
Definition sample_stringify (l : list Product) : string := "[...]".
Definition sample_parse (text : string) : Outcome (list Product) :=
  Returns [tea; mug].

End Products.

(** ** The toast list ([ToastProvider]) *)

Module Toasts.

(** [ToastType] / [ALERT_TYPE] *)
Inductive ToastType : Set := success | error | warning | info | default.

Record ToastItem : Set := {
  id : Z;                      (* Date.now() *)
  type : ToastType;
  message : String.string
}.

(** A pending [setTimeout] of [showToast]: the id it will remove and its
    delay. *)
Record Timer : Set := { removes : Z; delay : Q }.

Record State : Set := {
  toasts : list ToastItem;     (* useState *)
  timers : list Timer
}.

Definition mount : State := {| toasts := []; timers := [] |}.

(** [prev.filter((t) => t.id !== id)] *)
Definition without (i : Z) (prev : list ToastItem) : list ToastItem :=
  filter (fun t => negb (id t =? i)%Z) prev.

(** [showToast(message, type = ALERT_TYPE.DEFAULT, duration = 3000)];
    [now] is the value of [Date.now()] at the call. *)
Definition showToast (now : Z) (msg : String.string)
    (ty : option ToastType) (duration : option Q) (s : State) : State :=
  let ty := match ty with Some t => t | None => default end in
  let duration := match duration with Some d => d | None => 3000 end in
  {| toasts := toasts s ++ [{| id := now; type := ty; message := msg |}];
     timers := timers s ++ [{| removes := now; delay := duration + 600 |}] |}.

Definition handleClose (i : Z) (s : State) : State :=
  {| toasts := without i (toasts s); timers := timers s |}.

(** The [n]-th pending timeout runs. *)
Definition timeout (n : nat) (s : State) : State :=
  match nth_error (timers s) n with
  | None => s
  | Some t =>
      {| toasts := without (removes t) (toasts s);
         timers := firstn n (timers s) ++ skipn (S n) (timers s) |}
  end.

Inductive Event : Set :=
| Show (now : Z) (msg : String.string) (ty : option ToastType)
       (duration : option Q)
| Close (i : Z)
| Timeout (n : nat).

Definition step (e : Event) (s : State) : State :=
  match e with
  | Show now msg ty duration => showToast now msg ty duration s
  | Close i => handleClose i s
  | Timeout n => timeout n s
  end.

Definition run (es : list Event) (s : State) : State :=
  fold_left (fun acc e => step e acc) es s.

(** All pending timeouts run, oldest first. *)
Definition drain (s : State) : State :=
  Nat.iter (length (timers s)) (timeout 0) s.

End Toasts.

(** ** The catalogue screen ([app/index]) and the product form

    [String.prototype.trim], [toLowerCase] and [includes] and the test
    [isNaN(Number(text))] are parameters. *)

Module Catalog.
Import String.
Local Open Scope string_scope.

Record StringOps : Type := {
  trim : string -> string;
  toLowerCase : string -> string;
  includes : string -> string -> bool;
  isNaN_Number : string -> bool
}.

Section Screen.

Variable js : StringOps.

(** [ProductSearchService.filter] *)
Definition filter (products : list Products.Product) (query : string)
    : list Products.Product :=
  if String.eqb (trim js query) "" then products
  else
    let normalizedQuery := trim js (toLowerCase js query) in
    List.filter
      (fun product =>
         includes js (toLowerCase js (Products.name product)) normalizedQuery)
      products.

(** [FormErrors] *)
Record FormErrors : Set := { name_error : string; price_error : string }.

(** [ProductValidator.validate] *)
Definition validate (name price : string) : bool * FormErrors :=
  let name_bad := String.eqb (trim js name) "" in
  let price_bad := String.eqb (trim js price) "" || isNaN_Number js price in
  (negb name_bad && negb price_bad,
   {| name_error := if name_bad then "Product name is required." else "";
      price_error := if price_bad then "Valid price is required." else "" |}).

Definition MAX_PRODUCTS : nat := 5.

(** [ProductService.canAddProduct] *)
Definition canAddProduct (currentCount : nat) : bool :=
  (currentCount <? MAX_PRODUCTS)%nat.

(** What [handleSubmit] has done when it returns or reaches its first
    [await]: whether [setIsSubmitting(true)] ran, the argument of
    [setErrors] if [validateForm] ran, and the toasts it asked for. *)
Record Submitted : Set := {
  started : bool;
  errors_set : option FormErrors;
  shown : list (string * Toasts.ToastType)
}.

(** [handleSubmit] up to its first [await], over the values its render
    bound: [isSubmitting], the three fields, [isEditing] and
    [products.length]. *)
Definition handleSubmit (isSubmitting : bool)
    (productName productPrice productThumbnail : string)
    (isEditing : bool) (count : nat) : Submitted :=
  if isSubmitting then
    {| started := false; errors_set := None; shown := [] |}
  else
    let (valid, validationErrors) := validate productName productPrice in
    if negb valid then
      {| started := false; errors_set := Some validationErrors;
         shown := [("Please fix the errors in the form.", Toasts.error)] |}
    else if String.eqb productThumbnail "" then
      {| started := false; errors_set := Some validationErrors;
         shown := [("Please upload a product thumbnail.", Toasts.error)] |}
    else if negb isEditing && negb (canAddProduct count) then
      {| started := false; errors_set := Some validationErrors;
         shown := [("You have reached the maximum limit of 5 products.",
                    Toasts.info)] |}
    else
      {| started := true; errors_set := Some validationErrors; shown := [] |}.

End Screen.

(** A stand-in for the string functions: nothing is trimmed or folded,
    every name matches, every price is a number. *)
Definition sample_js : StringOps :=
  {| trim := fun s => s;
     toLowerCase := fun s => s;
     includes := fun _ _ => true;
     isNaN_Number := fun _ => false |}.

End Catalog.

(** ** The arithmetic of the sheet on binary64 numbers

    The lines of [bottom-sheet.tsx] that compute with numbers, on the
    doubles JavaScript computes with: each [+], [-], [*], [Math.abs] and
    [<] is the IEEE 754 binary64 operation, a decimal literal is the
    nearest double. *)

Module Binary64.
Import Floats.
Local Open Scope float_scope.
#[local] Set Warnings "-inexact-float".

(** [arr[i]]: [undefined] (here [None]) out of range. *)
Definition at_index (l : list float) (i : Z) : option float :=
  if (i <? 0)%Z then None else nth_error l (Z.to_nat i).

(** [snapPoints.map((point) => SCREEN_HEIGHT * (1 - point))] *)
Definition snapHeights (SCREEN_HEIGHT : float) (snapPoints : list float)
    : list float :=
  map (fun point => SCREEN_HEIGHT * (1 - point)) snapPoints.

(** The [forEach] of [findNearestSnap], from element [index] on. *)
Fixpoint forEach_nearest (position : float) (hs : list float) (index : Z)
    (nearest : Z) (minDist : float) : Z * float :=
  match hs with
  | [] => (nearest, minDist)
  | height :: rest =>
      let dist := abs (position - height) in
      if dist <? minDist
      then forEach_nearest position rest (index + 1)%Z index dist
      else forEach_nearest position rest (index + 1)%Z nearest minDist
  end.

(** On an empty table [minDist] is [NaN] and [nearest] stays 0. *)
Definition findNearestSnap (snapHeights : list float) (position : float)
    : Z :=
  match snapHeights with
  | [] => 0%Z
  | h0 :: _ =>
      fst (forEach_nearest position snapHeights 0 0 (abs (position - h0)))
  end.

(** What the release handler asks for: [close()] or [snapToIndex(index)]. *)
Inductive Target : Set := Closes | SnapsTo (index : Z).

(** The decision of [onPanResponderRelease], over the values it reads:
    the two props-derived values of its closure, [lastOffset.current] and
    the gesture. *)
Definition onPanResponderRelease (enablePanDownToClose : bool)
    (currentSnapIndex : Z) (snapHeights : list float)
    (lastOffset dy vy : float) : Target :=
  let currentY := lastOffset + dy in
  let velocity := vy in
  if enablePanDownToClose && (200 <? dy) && (0.7 <? velocity) then Closes
  else if 0.7 <? abs velocity then
    let direction := if 0 <? velocity then 1%Z else (-1)%Z in
    let nextIndex :=
      Z.min (Z.max (currentSnapIndex + direction) 0)
            (Z.of_nat (length snapHeights) - 1) in
    SnapsTo nextIndex
  else
    let nearestIndex := findNearestSnap snapHeights currentY in
    SnapsTo nearestIndex.

(** The real number a double stands for; none for infinities and NaN. *)
Definition exact (x : float) : option Q :=
  match Prim2SF x with
  | S754_zero _ => Some 0%Q
  | S754_finite s m e =>
      Some ((if s then (-1)%Q else 1%Q) * (Zpos m # 1) * (2 # 1) ^ e)%Q
  | _ => None
  end.


(** What the loop knows after the elements before index [k] of [all], in
    terms of the distances as computed. *)
Definition nearest_upto (position : float) (all : list float) (k : Z)
    (nearest : Z) (minDist : float) : Prop :=
  exists hn,
    at_index all nearest = Some hn /\
    minDist = abs (position - hn) /\
    (forall j hj, (j < k)%Z -> at_index all j = Some hj ->
                  (abs (position - hj) <? minDist) = false) /\
    (forall j hj, (j < nearest)%Z -> at_index all j = Some hj ->
                  (minDist <? abs (position - hj)) = true).


End Binary64.

(** ** Concrete instances for the examples *)

(** A window 800 units high. *)
Definition screen : Q := 800.

(** The default sheet, both callbacks supplied: offsets 560, 320, 80. *)
Definition three_snaps : BottomSheetProps := default_props true true.

(** The same sheet with no snap point at all. *)
Definition no_snaps : BottomSheetProps := with_snapPoints [] three_snaps.

(** Fractions that put the offsets at 100, 400 and 700. *)
Definition snaps_100_400_700 : BottomSheetProps :=
  with_snapPoints [7 # 8; 1 # 2; 1 # 8] three_snaps.

(** The default sheet with pan-down-to-close switched off. *)
Definition fixed_sheet : BottomSheetProps :=
  {| snapPoints := [0.3; 0.6; 0.9];
     enablePanDownToClose := false;
     enableBackdropDismiss := false;
     onClose := true;
     onOpen := true |}.

Definition flick_up : Gesture := {| dx := 0; dy := -30; vy := -1 |}.
Definition flick_down : Gesture := {| dx := 0; dy := 30; vy := 1 |}.
Definition pull_down : Gesture := {| dx := 0; dy := 250; vy := 0.9 |}.
Definition slow_drag : Gesture := {| dx := 0; dy := 150; vy := 0.2 |}.

(** What the first render leaves behind: the hook state and the offsets
    computed from the fractions. *)
Record Instance : Set := { hooks : Sheet; table : list Q }.

(** ** The component *)

Section BottomSheet.

(** [Dimensions.get("window").height], read once at module load. *)
Variable SCREEN_HEIGHT : Q.

(** [Platform.OS === "web"]. *)
Variable platform_is_web : bool.

(** The props of the instance; they do not change over its lifetime. *)
Variable props : BottomSheetProps.

(** [snapPoints.map((point) => SCREEN_HEIGHT * (1 - point))] *)
Definition snapHeights : list Q :=
  map (fun point => SCREEN_HEIGHT * (1 - point)) (snapPoints props).

(** The hook state of the first render. *)
Definition mount : Sheet :=
  {| translateY := SCREEN_HEIGHT;
     backdropOpacity := 0;
     lastOffset := SCREEN_HEIGHT;
     visible := false;
     currentSnapIndex := 1;
     isPanning := false;
     keyboardHeight := 0;
     animation := None;
     timers := 0;
     effects := [] |}.

(** The first evaluation of the component function.  Its body runs the
    hooks above, maps the fractions and returns; there is no [throw] and
    no check of [snapPoints] on the way. *)
Definition BottomSheet : Outcome Instance :=
  Returns {| hooks := mount; table := snapHeights |}.

Definition triggerHaptic (s : Sheet) : Sheet :=
  if negb platform_is_web then emit Haptic s else s.

(** [animateTo]: starting the parallel animation on [translateY] stops
    the one in flight, whose callback then receives [finished: false]
    and does nothing; the new one is pending until it settles. *)
Definition animateTo (toValue : Q) (cb : Completion) (s : Sheet) : Sheet :=
  set_animation (Some (toValue, cb)) s.

Definition run_completion (cb : Completion) (s : Sheet) : Sheet :=
  match cb with
  | CbNone => s
  | CbHaptic => triggerHaptic s
  | CbClose => call_optional (onClose props) OnClose (setVisible false s)
  end.

(** The running animation completes with [finished: true]: both values
    are at their targets, [lastOffset.current = toValue], then [cb]. *)
Definition settle (s : Sheet) : Sheet :=
  match animation s with
  | None => s
  | Some (toValue, cb) =>
      run_completion cb
        (set_lastOffset toValue
           (set_animation None
              (set_backdropOpacity
                 (if Qeq_bool toValue SCREEN_HEIGHT then 0 else 1)
                 (set_translateY toValue s))))
  end.

Definition snapToIndex_guard (index : Z) : bool :=
  (0 <=? index)%Z && (index <? Z.of_nat (length snapHeights))%Z.

(** Inside the guard [snapHeights[index]] is defined. *)
Definition snapToIndex (index : Z) (s : Sheet) : Sheet :=
  if snapToIndex_guard index then
    match at_index snapHeights index with
    | Some h => animateTo h CbHaptic (setCurrentSnapIndex index s)
    | None => s
    end
  else s.

Definition open (s : Sheet) : Sheet :=
  set_timers (S (timers s)) (setVisible true s).

(** The callback of the timeout of [open]. *)
Definition open_timeout (s : Sheet) : Sheet :=
  call_optional (onOpen props) OnOpen (snapToIndex 1 s).

Definition close (s : Sheet) : Sheet :=
  animateTo SCREEN_HEIGHT CbClose s.

(** The [forEach] of [findNearestSnap], from element [index] on. *)
Fixpoint forEach_nearest (position : Q) (hs : list Q) (index : Z)
    (nearest : Z) (minDist : Q) : Z * Q :=
  match hs with
  | [] => (nearest, minDist)
  | height :: rest =>
      let dist := Qabs (position - height) in
      if Qltb dist minDist
      then forEach_nearest position rest (index + 1)%Z index dist
      else forEach_nearest position rest (index + 1)%Z nearest minDist
  end.

(** On an empty table [snapHeights[0]] is [undefined], [minDist] is
    [NaN], the loop has nothing to visit and [nearest] stays 0. *)
Definition findNearestSnap (position : Q) : Z :=
  match snapHeights with
  | [] => 0%Z
  | h0 :: _ =>
      fst (forEach_nearest position snapHeights 0 0 (Qabs (position - h0)))
  end.

(** *** Pan responder *)

Definition onMoveShouldSetPanResponder (g : Gesture) : bool :=
  Qltb 10 (Qabs (dy g)) && Qltb (Qabs (dx g)) 20.

(** [translateY.stopAnimation(cb)] stops the running animation and
    hands the current value to [cb]. *)
Definition onPanResponderGrant (s : Sheet) : Sheet :=
  if isPanning s then s
  else triggerHaptic
         (set_lastOffset (translateY s)
            (set_animation None (set_isPanning true s))).

(** The listener of the move event.  [newY < snapHeights[0]] is false
    when the table is empty. *)
Definition resisted (newY : Q) : Q :=
  match at_index snapHeights 0 with
  | Some h0 =>
      if Qltb newY h0 then h0 - (h0 - newY) * 0.5
      else if Qltb SCREEN_HEIGHT newY && enablePanDownToClose props
           then SCREEN_HEIGHT + (newY - SCREEN_HEIGHT) * 0.2
           else newY
  | None =>
      if Qltb SCREEN_HEIGHT newY && enablePanDownToClose props
      then SCREEN_HEIGHT + (newY - SCREEN_HEIGHT) * 0.2
      else newY
  end.

(** [Animated.event] first writes [gesture.dy] into [translateY], then
    runs the listener, which overwrites it on each of its three paths;
    [setValue] stops a running animation. *)
Definition onPanResponderMove (g : Gesture) (s : Sheet) : Sheet :=
  let newY := lastOffset s + dy g in
  set_translateY (resisted newY) (set_animation None s).

(** [sc] is the render whose closure the handler is: [currentSnapIndex]
    is read from it, not from the live state. *)
Definition onPanResponderRelease (sc : Scope) (g : Gesture) (s : Sheet)
    : Sheet :=
  let s := set_isPanning false s in
  let currentY := lastOffset s + dy g in
  let velocity := vy g in
  if enablePanDownToClose props && Qltb 200 (dy g) && Qltb 0.7 velocity
  then close s
  else if Qltb 0.7 (Qabs velocity) then
    let direction := if Qltb 0 velocity then 1%Z else (-1)%Z in
    let nextIndex :=
      Z.min (Z.max (sc_currentSnapIndex sc + direction) 0)
            (Z.of_nat (length snapHeights) - 1) in
    snapToIndex nextIndex s
  else
    let nearestIndex := findNearestSnap currentY in
    snapToIndex nearestIndex s.

Definition onPanResponderTerminate (s : Sheet) : Sheet :=
  let s := set_isPanning false s in
  let nearestIndex := findNearestSnap (lastOffset s) in
  snapToIndex nearestIndex s.

(** [useRef(PanResponder.create({...})).current]: the ref keeps the
    responder built by the first render, so its handlers close over the
    scope of that render for the whole life of the instance. *)
Definition panResponder_scope : Scope := render mount.

(** *** The event loop *)

Inductive Event : Set :=
| CallOpen
| CallClose
| CallSnapToIndex (index : Z)
| TimerFires
| AnimationFrame (value : Q)
| AnimationSettles
| PanGrant
| PanMove (g : Gesture)
| PanRelease (g : Gesture)
| PanTerminate
| BackdropPress
| KeyboardShow (height : Q)
| KeyboardHide.

Definition step (e : Event) (s : Sheet) : Sheet :=
  match e with
  | CallOpen => open s
  | CallClose => close s
  | CallSnapToIndex i => snapToIndex i s
  | TimerFires =>
      match timers s with
      | O => s
      | S n => open_timeout (set_timers n s)
      end
  | AnimationFrame v =>
      match animation s with
      | None => s
      | Some _ => set_translateY v s
      end
  | AnimationSettles => settle s
  | PanGrant => onPanResponderGrant s
  | PanMove g => onPanResponderMove g s
  | PanRelease g => onPanResponderRelease panResponder_scope g s
  | PanTerminate => onPanResponderTerminate s
  | BackdropPress => if enableBackdropDismiss props then close s else s
  | KeyboardShow h => setKeyboardHeight h s
  | KeyboardHide => setKeyboardHeight 0 s
  end.

Definition run (es : list Event) (s : Sheet) : Sheet :=
  fold_left (fun acc e => step e acc) es s.

(** The height of the panel as rendered. *)
Definition panel_height (s : Sheet) : Q := SCREEN_HEIGHT - keyboardHeight s.

(** ** Auxiliary notions for the proofs *)

(** [Math.min(Math.max(i, 0), snapHeights.length - 1)] *)
Definition clamp_index (i : Z) : Z :=
  Z.min (Z.max i 0) (Z.of_nat (length snapHeights) - 1).

(** What the loop knows after the elements before index [k] of [all]:
    [nearest] holds an element at distance [minDist], nothing visited is
    nearer, and everything before [nearest] is strictly farther. *)
Definition nearest_upto (position : Q) (all : list Q) (k : Z)
    (nearest : Z) (minDist : Q) : Prop :=
  exists hn,
    at_index all nearest = Some hn /\
    minDist = Qabs (position - hn) /\
    (forall j hj, (j < k)%Z -> at_index all j = Some hj ->
                  minDist <= Qabs (position - hj)) /\
    (forall j hj, (j < nearest)%Z -> at_index all j = Some hj ->
                  minDist < Qabs (position - hj)).

(** The index is the initial 1 or an index of the table. *)
Definition index_wf (s : Sheet) : Prop :=
  currentSnapIndex s = 1%Z \/
  (0 <= currentSnapIndex s < Z.of_nat (length snapHeights))%Z.

(** A pending animation closes towards [SCREEN_HEIGHT] or snaps towards
    the offset of the current index. *)
Definition animation_wf (s : Sheet) : Prop :=
  match animation s with
  | None => True
  | Some (toValue, CbClose) => toValue = SCREEN_HEIGHT
  | Some (toValue, CbHaptic) =>
      at_index snapHeights (currentSnapIndex s) = Some toValue
  | Some (_, CbNone) => False
  end.

Definition is_keyboard (e : Event) : bool :=
  match e with
  | KeyboardShow _ | KeyboardHide => true
  | _ => false
  end.

(** What the platform and the props let the component emit. *)
Definition allowed (x : Effect) : Prop :=
  match x with
  | Haptic => platform_is_web = false
  | OnOpen => onOpen props = true
  | OnClose => onClose props = true
  end.

(** Events by which time passes: a frame or the end of an animation. *)
Definition passive (e : Event) : bool :=
  match e with
  | AnimationFrame _ | AnimationSettles => true
  | _ => false
  end.

Definition is_settle (e : Event) : bool :=
  match e with
  | AnimationSettles => true
  | _ => false
  end.

(** A closing animation is in flight. *)
Definition closing (s : Sheet) : bool :=
  match animation s with
  | Some (_, CbClose) => true
  | _ => false
  end.

(** ** Properties *)

(** *** Arithmetic helpers *)

Lemma Qltb_true (x y : Q) : Qltb x y = true <-> x < y.
Proof.
  unfold Qltb. rewrite negb_true_iff. split.
  - intros E. apply Qnot_le_lt. intros L.
    apply Qle_bool_iff in L. congruence.
  - intros L. destruct (Qle_bool y x) eqn:E; [|reflexivity].
    apply Qle_bool_iff in E. exfalso. apply (Qlt_not_le _ _ L E).
Qed.

Lemma Qltb_false (x y : Q) : Qltb x y = false <-> y <= x.
Proof.
  unfold Qltb. rewrite negb_false_iff. apply Qle_bool_iff.
Qed.


(** *** The snap-offset table *)

Lemma length_snapHeights : length snapHeights = length (snapPoints props).
Proof. unfold snapHeights. apply length_map. Qed.

Lemma snapHeights_nonempty : snapPoints props <> [] -> snapHeights <> [].
Proof.
  unfold snapHeights. destruct (snapPoints props); [congruence|discriminate].
Qed.

Lemma at_index_Some (l : list Q) (i : Z) (h : Q) :
  at_index l i = Some h -> (0 <= i < Z.of_nat (length l))%Z.
Proof.
  unfold at_index. destruct (Z.ltb_spec i 0); [discriminate|].
  intros E. assert (Z.to_nat i < length l)%nat.
  { apply nth_error_Some. congruence. }
  lia.
Qed.

Lemma at_index_in_range (l : list Q) (i : Z) :
  (0 <= i < Z.of_nat (length l))%Z -> exists h, at_index l i = Some h.
Proof.
  intros R. unfold at_index. destruct (Z.ltb_spec i 0); [lia|].
  destruct (nth_error l (Z.to_nat i)) eqn:E; [eauto|].
  apply nth_error_None in E. lia.
Qed.

Lemma at_index_app_next (pre : list Q) (x : Q) (rest : list Q) :
  at_index (pre ++ x :: rest) (Z.of_nat (length pre)) = Some x.
Proof.
  unfold at_index. destruct (Z.ltb_spec (Z.of_nat (length pre)) 0); [lia|].
  rewrite Nat2Z.id, nth_error_app2 by lia.
  now rewrite Nat.sub_diag.
Qed.

Lemma snapToIndex_guard_true (i : Z) :
  snapToIndex_guard i = true <-> (0 <= i < Z.of_nat (length snapHeights))%Z.
Proof.
  unfold snapToIndex_guard. rewrite andb_true_iff, Z.leb_le, Z.ltb_lt.
  reflexivity.
Qed.

Lemma snapToIndex_accepts (i : Z) (h : Q) (s : Sheet) :
  at_index snapHeights i = Some h ->
  snapToIndex i s = animateTo h CbHaptic (setCurrentSnapIndex i s).
Proof.
  intros E. unfold snapToIndex.
  apply at_index_Some in E as R. apply snapToIndex_guard_true in R.
  now rewrite R, E.
Qed.

Lemma snapToIndex_rejects (i : Z) (s : Sheet) :
  ~ (0 <= i < Z.of_nat (length snapHeights))%Z -> snapToIndex i s = s.
Proof.
  intros N. unfold snapToIndex.
  destruct (snapToIndex_guard i) eqn:G; [|reflexivity].
  apply snapToIndex_guard_true in G. contradiction.
Qed.

(** *** The nearest-snap loop *)

Lemma forEach_nearest_cons (position height : Q) (rest : list Q)
    (index nearest : Z) (minDist : Q) :
  forEach_nearest position (height :: rest) index nearest minDist
  = if Qltb (Qabs (position - height)) minDist
    then forEach_nearest position rest (index + 1)%Z index
           (Qabs (position - height))
    else forEach_nearest position rest (index + 1)%Z nearest minDist.
Proof. reflexivity. Qed.

Lemma forEach_nearest_invariant (position : Q) (all : list Q) :
  forall hs pre nearest minDist,
    all = pre ++ hs ->
    nearest_upto position all (Z.of_nat (length pre)) nearest minDist ->
    nearest_upto position all (Z.of_nat (length all))
      (fst (forEach_nearest position hs (Z.of_nat (length pre)) nearest minDist))
      (snd (forEach_nearest position hs (Z.of_nat (length pre)) nearest minDist)).
Proof.
  induction hs as [|height rest IH]; intros pre nearest minDist Hall Inv.
  - simpl. rewrite app_nil_r in Hall. now subst pre.
  - rewrite forEach_nearest_cons.
    assert (Hnext : all = (pre ++ [height]) ++ rest)
      by now rewrite <- app_assoc.
    assert (Hlen : (Z.of_nat (length pre) + 1)%Z
                   = Z.of_nat (length (pre ++ [height])))
      by (rewrite length_app; simpl; lia).
    assert (Hk : at_index all (Z.of_nat (length pre)) = Some height)
      by (rewrite Hall; apply at_index_app_next).
    destruct Inv as (hn & Hn & Hm & Hle & Hlt).
    destruct (Qltb (Qabs (position - height)) minDist) eqn:C;
      rewrite Hlen; apply (IH (pre ++ [height])); try exact Hnext;
      rewrite <- Hlen.
    + apply Qltb_true in C.
      unfold nearest_upto. exists height. repeat split; trivial.
      * intros j hj Hj Ej.
        destruct (Z.eq_dec j (Z.of_nat (length pre))) as [->|Hne].
        -- rewrite Hk in Ej. injection Ej as <-. apply Qle_refl.
        -- apply Qlt_le_weak, Qlt_le_trans with minDist; [exact C|].
           apply (Hle j hj); [lia|exact Ej].
      * intros j hj Hj Ej.
        apply Qlt_le_trans with minDist; [exact C|].
        apply (Hle j hj); [lia|exact Ej].
    + apply Qltb_false in C.
      unfold nearest_upto. exists hn. repeat split; trivial.
      intros j hj Hj Ej.
      destruct (Z.eq_dec j (Z.of_nat (length pre))) as [->|Hne].
      * rewrite Hk in Ej. injection Ej as <-. exact C.
      * apply (Hle j hj); [lia|exact Ej].
Qed.

(** [findNearestSnap] on a table with at least one offset: the index is
    in range, no offset is nearer, and every earlier one is farther. *)
Lemma findNearestSnap_spec (position : Q) :
  snapHeights <> [] ->
  exists hi,
    at_index snapHeights (findNearestSnap position) = Some hi /\
    (forall j hj, at_index snapHeights j = Some hj ->
                  Qabs (position - hi) <= Qabs (position - hj)) /\
    (forall j hj, (j < findNearestSnap position)%Z ->
                  at_index snapHeights j = Some hj ->
                  Qabs (position - hi) < Qabs (position - hj)).
Proof.
  intros Hne. unfold findNearestSnap.
  destruct snapHeights as [|h0 rest] eqn:E; [congruence|].
  pose proof (forEach_nearest_invariant position (h0 :: rest)
                (h0 :: rest) [] 0%Z (Qabs (position - h0)) eq_refl) as Inv.
  simpl length in Inv. change (Z.of_nat 0) with 0%Z in Inv.
  destruct Inv as (hi & Hi & Hm & Hle & Hlt).
  - exists h0. repeat split.
    + intros j hj Hj Ej. apply at_index_Some in Ej. lia.
    + intros j hj Hj Ej. apply at_index_Some in Ej. lia.
  - exists hi. split; [exact Hi|]. rewrite Hm in Hle, Hlt. split.
    + intros j hj Ej. apply (Hle j hj); [|exact Ej].
      apply at_index_Some in Ej. simpl length in Ej. lia.
    + exact Hlt.
Qed.

(** *** The three branches of the release handler *)

Lemma release_dismiss (sc : Scope) (g : Gesture) (s : Sheet) :
  enablePanDownToClose props = true -> 200 < dy g -> 0.7 < vy g ->
  onPanResponderRelease sc g s = close (set_isPanning false s).
Proof.
  intros E D V. unfold onPanResponderRelease.
  apply Qltb_true in D, V. now rewrite E, D, V.
Qed.

Lemma release_flick (sc : Scope) (g : Gesture) (s : Sheet) :
  enablePanDownToClose props && Qltb 200 (dy g) && Qltb 0.7 (vy g) = false ->
  0.7 < Qabs (vy g) ->
  onPanResponderRelease sc g s
  = snapToIndex
      (clamp_index (sc_currentSnapIndex sc
                    + (if Qltb 0 (vy g) then 1 else -1))%Z)
      (set_isPanning false s).
Proof.
  intros D V. unfold onPanResponderRelease.
  apply Qltb_true in V. now rewrite D, V.
Qed.

Lemma release_slow (sc : Scope) (g : Gesture) (s : Sheet) :
  Qabs (vy g) <= 0.7 ->
  onPanResponderRelease sc g s
  = snapToIndex (findNearestSnap (lastOffset s + dy g))
      (set_isPanning false s).
Proof.
  intros V. unfold onPanResponderRelease.
  assert (V1 : Qltb 0.7 (Qabs (vy g)) = false) by now apply Qltb_false.
  assert (V2 : Qltb 0.7 (vy g) = false).
  { apply Qltb_false. apply Qle_trans with (Qabs (vy g)); [apply Qle_Qabs|exact V]. }
  rewrite V1, V2, andb_false_r. reflexivity.
Qed.

Lemma clamp_index_in_range (i : Z) :
  snapHeights <> [] ->
  (0 <= clamp_index i < Z.of_nat (length snapHeights))%Z.
Proof.
  intros Hne. unfold clamp_index.
  destruct snapHeights; [congruence|]. simpl length. lia.
Qed.

(** *** Claims *)

(** C2.  With pan-down-to-close enabled, a release with [dy > 200] and
    [vy > 0.7] is [close()]: the sheet animates to [SCREEN_HEIGHT] with the
    closing completion, whatever the snap index (live or captured); no
    [snapToIndex] runs, the snap index is left as it was, and once the
    animation settles the sheet sits at [SCREEN_HEIGHT] and is hidden. *)
Theorem release_fast_dismiss_closes (sc : Scope) (g : Gesture) (s : Sheet) :
  enablePanDownToClose props = true -> 200 < dy g -> 0.7 < vy g ->
  let s' := onPanResponderRelease sc g s in
  s' = close (set_isPanning false s) /\
  animation s' = Some (SCREEN_HEIGHT, CbClose) /\
  currentSnapIndex s' = currentSnapIndex s /\
  translateY (settle s') = SCREEN_HEIGHT /\
  visible (settle s') = false.
Proof.
  intros E D V s'. subst s'. rewrite (release_dismiss sc g s E D V).
  unfold settle, close, animateTo, run_completion, call_optional; simpl.
  repeat split; destruct (onClose props); reflexivity.
Qed.

(** C6.  [snapToIndex(i)] with [i] outside [0, snapHeights.length) returns
    the state it was given: same snap index, same offset, no animation
    started, nothing emitted.  The function is total, there is no path on
    which it throws. *)
Theorem snapToIndex_out_of_range_noop (i : Z) (s : Sheet) :
  ~ (0 <= i < Z.of_nat (length snapHeights))%Z ->
  snapToIndex i s = s /\
  step (CallSnapToIndex i) s = s /\
  currentSnapIndex (snapToIndex i s) = currentSnapIndex s /\
  translateY (snapToIndex i s) = translateY s /\
  animation (snapToIndex i s) = animation s /\
  effects (snapToIndex i s) = effects s.
Proof.
  intros N. simpl step. rewrite (snapToIndex_rejects i s N).
  repeat split; reflexivity.
Qed.

(** C10.  On a table with at least one offset [findNearestSnap] returns an
    index of the table, whatever the position; the guard of [snapToIndex]
    accepts it, so the terminate handler and the slow release do snap; the
    clamped index of the flick branch is accepted as well. *)
Theorem findNearestSnap_in_range (position : Q) :
  snapPoints props <> [] ->
  (0 <= findNearestSnap position < Z.of_nat (length snapHeights))%Z /\
  snapToIndex_guard (findNearestSnap position) = true /\
  (forall s, exists h,
     at_index snapHeights (findNearestSnap (lastOffset s)) = Some h /\
     onPanResponderTerminate s
     = animateTo h CbHaptic
         (setCurrentSnapIndex (findNearestSnap (lastOffset s))
            (set_isPanning false s))) /\
  (forall sc g s, Qabs (vy g) <= 0.7 -> exists h,
     at_index snapHeights (findNearestSnap (lastOffset s + dy g)) = Some h /\
     onPanResponderRelease sc g s
     = animateTo h CbHaptic
         (setCurrentSnapIndex (findNearestSnap (lastOffset s + dy g))
            (set_isPanning false s))) /\
  (forall i, snapToIndex_guard (clamp_index i) = true).
Proof.
  intros Hne. apply snapHeights_nonempty in Hne.
  assert (R : forall p, exists h,
             at_index snapHeights (findNearestSnap p) = Some h).
  { intros p. destruct (findNearestSnap_spec p Hne) as (h & Hh & _). eauto. }
  destruct (R position) as (h & Hh).
  split; [exact (at_index_Some _ _ _ Hh)|].
  split; [apply snapToIndex_guard_true, (at_index_Some _ _ _ Hh)|].
  split; [|split].
  - intros s. destruct (R (lastOffset s)) as (h' & Hh'). exists h'.
    split; [exact Hh'|]. unfold onPanResponderTerminate.
    apply (snapToIndex_accepts _ h' _ Hh').
  - intros sc g s V. destruct (R (lastOffset s + dy g)) as (h' & Hh').
    exists h'. split; [exact Hh'|]. rewrite (release_slow sc g s V).
    apply (snapToIndex_accepts _ h' _ Hh').
  - intros i. apply snapToIndex_guard_true, clamp_index_in_range, Hne.
Qed.

(** C4.  A move event with candidate [c = lastOffset + dy] sets
    [translateY] to [h0 - (h0 - c) * 0.5] when [c] is below the first
    offset [h0]; otherwise to [SCREEN_HEIGHT + (c - SCREEN_HEIGHT) * 0.2]
    when [c] exceeds [SCREEN_HEIGHT] and pan-down-to-close is enabled;
    otherwise to [c] itself.  The two resistance cases cannot overlap when
    the screen height and the fractions are not negative, so the second
    one then needs no "otherwise". *)
Theorem move_applies_edge_resistance (g : Gesture) (s : Sheet) :
  let c := lastOffset s + dy g in
  let applied := translateY (onPanResponderMove g s) in
  let above_first := exists h0, at_index snapHeights 0 = Some h0 /\ c < h0 in
  (forall h0, at_index snapHeights 0 = Some h0 -> c < h0 ->
     applied = h0 - (h0 - c) * 0.5) /\
  (~ above_first -> SCREEN_HEIGHT < c -> enablePanDownToClose props = true ->
     applied = SCREEN_HEIGHT + (c - SCREEN_HEIGHT) * 0.2) /\
  (~ above_first ->
   ~ (SCREEN_HEIGHT < c /\ enablePanDownToClose props = true) ->
     applied = c) /\
  (0 <= SCREEN_HEIGHT -> Forall (fun f => 0 <= f) (snapPoints props) ->
   SCREEN_HEIGHT < c -> enablePanDownToClose props = true ->
     applied = SCREEN_HEIGHT + (c - SCREEN_HEIGHT) * 0.2).
Proof.
  intros c applied above_first. subst applied.
  unfold onPanResponderMove. fold c. simpl translateY.
  assert (Second : ~ above_first -> SCREEN_HEIGHT < c ->
                   enablePanDownToClose props = true ->
                   resisted c = SCREEN_HEIGHT + (c - SCREEN_HEIGHT) * 0.2).
  { intros NA B E. unfold resisted. apply Qltb_true in B.
    destruct (at_index snapHeights 0) as [h0|] eqn:H0.
    - destruct (Qltb c h0) eqn:A.
      + exfalso. apply NA. exists h0. split; [reflexivity|].
        now apply Qltb_true.
      + now rewrite B, E.
    - now rewrite B, E. }
  split; [|split; [exact Second|split]].
  - intros h0 H0 A. unfold resisted. rewrite H0.
    apply Qltb_true in A. now rewrite A.
  - intros NA NB. unfold resisted.
    assert (B : Qltb SCREEN_HEIGHT c && enablePanDownToClose props = false).
    { destruct (Qltb SCREEN_HEIGHT c) eqn:B; [|reflexivity].
      destruct (enablePanDownToClose props) eqn:E; [|reflexivity].
      exfalso. apply NB. split; [now apply Qltb_true|reflexivity]. }
    destruct (at_index snapHeights 0) as [h0|] eqn:H0.
    + destruct (Qltb c h0) eqn:A.
      * exfalso. apply NA. exists h0. split; [reflexivity|].
        now apply Qltb_true.
      * now rewrite B.
    + now rewrite B.
  - intros Hpos Hfs B E. apply Second; trivial.
    intros (h0 & H0 & A). unfold snapHeights in H0.
    destruct (snapPoints props) as [|f0 fs]; [discriminate|].
    apply Forall_inv in Hfs. injection H0 as <-.
    assert (SCREEN_HEIGHT * (1 - f0) <= SCREEN_HEIGHT) by nra.
    lra.
Qed.

(** C5, as the code has it.  With both callbacks supplied: [open()] emits
    nothing when called; its timeout calls [onOpen] once, right after it
    started the snap animation, which is then still running when there are
    two snap points or more; the end of an animation never calls [onOpen].
    [close()] emits nothing when called; [onClose] is called once when the
    closing animation ends.  A second [close()] before that end replaces
    the running animation and still yields one [onClose]; a second
    [close()] after that end runs a second animation and yields a second
    [onClose].  With two snap points or more, over open, timeout, end,
    close, end each callback is called once. *)
Theorem lifecycle_callbacks_as_coded (s : Sheet) :
  onOpen props = true -> onClose props = true ->
  let calls e t := count_occ Effect_eq_dec (effects t) e in
  effects (run [CallOpen] s) = effects s /\
  effects (run [CallOpen; TimerFires] s) = effects s ++ [OnOpen] /\
  ((2 <= length (snapPoints props))%nat ->
   exists h, animation (run [CallOpen; TimerFires] s) = Some (h, CbHaptic)) /\
  calls OnOpen (run [CallOpen; TimerFires; AnimationSettles] s)
  = S (calls OnOpen s) /\
  effects (run [CallClose] s) = effects s /\
  effects (run [CallClose; AnimationSettles] s) = effects s ++ [OnClose] /\
  effects (run [CallClose; CallClose; AnimationSettles] s)
  = effects s ++ [OnClose] /\
  effects (run [CallClose; AnimationSettles; CallClose; AnimationSettles] s)
  = effects s ++ [OnClose; OnClose] /\
  ((2 <= length (snapPoints props))%nat ->
   let t := run [CallOpen; TimerFires; AnimationSettles;
                 CallClose; AnimationSettles] s in
   calls OnOpen t = S (calls OnOpen s) /\
   calls OnClose t = S (calls OnClose s)).
Proof.
  intros HO HC calls. subst calls.
  assert (Hclose : forall t,
            effects (settle (close t)) = effects t ++ [OnClose]).
  { intros t. unfold settle, close, animateTo, run_completion, call_optional.
    simpl. now rewrite HC. }
  assert (Hopen : forall t,
            effects (run [CallOpen; TimerFires] t) = effects t ++ [OnOpen]).
  { intros t. unfold run. simpl fold_left. unfold open_timeout, call_optional.
    rewrite HO. unfold snapToIndex.
    destruct (snapToIndex_guard 1); [|reflexivity].
    destruct (at_index snapHeights 1); reflexivity. }
  assert (Hsettle : forall t,
            count_occ Effect_eq_dec (effects (settle t)) OnOpen
            = count_occ Effect_eq_dec (effects t) OnOpen).
  { intros t. unfold settle.
    destruct (animation t) as [[toValue cb]|]; [|reflexivity].
    destruct cb; unfold run_completion, triggerHaptic, call_optional;
      try rewrite HC; try destruct platform_is_web; simpl;
      rewrite ?count_occ_app; simpl; lia. }
  assert (Hhaptic : forall t h e, e <> Haptic ->
            animation t = Some (h, CbHaptic) ->
            count_occ Effect_eq_dec (effects (settle t)) e
            = count_occ Effect_eq_dec (effects t) e).
  { intros t h e Ne A. unfold settle. rewrite A.
    unfold run_completion, triggerHaptic.
    destruct platform_is_web; simpl effects; [reflexivity|].
    rewrite count_occ_app, (count_occ_cons_neq _ _ (not_eq_sym Ne)).
    simpl. lia. }
  assert (Hpending : (2 <= length (snapPoints props))%nat ->
            exists h, animation (run [CallOpen; TimerFires] s)
                      = Some (h, CbHaptic)).
  { intros L. destruct (at_index_in_range snapHeights 1) as (h1 & H1).
    { rewrite length_snapHeights. lia. }
    exists h1. unfold run. simpl fold_left. unfold open_timeout, call_optional.
    rewrite HO, (snapToIndex_accepts 1 h1 _ H1). reflexivity. }
  assert (Hcount : forall (l : list Effect) e,
            count_occ Effect_eq_dec (l ++ [e]) e
            = S (count_occ Effect_eq_dec l e)).
  { intros l e. rewrite count_occ_app, count_occ_cons_eq by reflexivity.
    simpl. lia. }
  assert (Hother : forall (l : list Effect) e e', e <> e' ->
            count_occ Effect_eq_dec (l ++ [e]) e'
            = count_occ Effect_eq_dec l e').
  { intros l e e' Ne. rewrite count_occ_app, (count_occ_cons_neq _ _ Ne).
    simpl. lia. }
  assert (Hopened :
            count_occ Effect_eq_dec
              (effects (run [CallOpen; TimerFires; AnimationSettles] s)) OnOpen
            = S (count_occ Effect_eq_dec (effects s) OnOpen)).
  { change (run [CallOpen; TimerFires; AnimationSettles] s)
      with (settle (run [CallOpen; TimerFires] s)).
    rewrite Hsettle, Hopen. apply Hcount. }
  split; [reflexivity|]. split; [apply Hopen|]. split; [exact Hpending|].
  split; [exact Hopened|].
  split; [reflexivity|]. split; [exact (Hclose s)|].
  split; [exact (Hclose (close s))|].
  split.
  { change (run [CallClose; AnimationSettles; CallClose; AnimationSettles] s)
      with (settle (close (settle (close s)))).
    rewrite !Hclose, <- app_assoc. reflexivity. }
  intros L. cbv zeta.
  change (run [CallOpen; TimerFires; AnimationSettles;
               CallClose; AnimationSettles] s)
    with (settle (close (run [CallOpen; TimerFires; AnimationSettles] s))).
  rewrite Hclose. split.
  - rewrite Hother by discriminate. exact Hopened.
  - rewrite Hcount. f_equal.
    change (run [CallOpen; TimerFires; AnimationSettles] s)
      with (settle (run [CallOpen; TimerFires] s)).
    destruct (Hpending L) as (h & A).
    rewrite (Hhaptic _ h OnClose) by (discriminate || exact A).
    rewrite Hopen. apply Hother. discriminate.
Qed.

(** C9, as the code has it.  An empty list of fractions is accepted: the
    first render returns with an empty table.  On that table
    [findNearestSnap] answers 0 for every position, the guard of
    [snapToIndex] refuses 0, and a terminated gesture or a slow release
    does nothing but clear the panning flag. *)
Theorem empty_snapPoints_is_accepted :
  snapPoints props = [] ->
  BottomSheet = Returns {| hooks := mount; table := [] |} /\
  (forall position, findNearestSnap position = 0%Z) /\
  snapToIndex_guard 0 = false /\
  (forall s, onPanResponderTerminate s = set_isPanning false s) /\
  (forall sc g s, Qabs (vy g) <= 0.7 ->
     onPanResponderRelease sc g s = set_isPanning false s).
Proof.
  intros E.
  assert (T : snapHeights = []) by (unfold snapHeights; now rewrite E).
  assert (F : forall position, findNearestSnap position = 0%Z)
    by (intros position; unfold findNearestSnap; now rewrite T).
  assert (R : forall s, snapToIndex 0 s = s).
  { intros s. apply snapToIndex_rejects. rewrite T. simpl. lia. }
  split; [unfold BottomSheet; now rewrite T|].
  split; [exact F|].
  split; [unfold snapToIndex_guard; now rewrite T|].
  split.
  - intros s. unfold onPanResponderTerminate. rewrite F. apply R.
  - intros sc g s V. rewrite (release_slow sc g s V), F. apply R.
Qed.

(** *** The flick branch and the index it reads *)

(** The handler installed in the responder reads index 1, the
    [useState(1)] of the first render, whatever the live index is. *)
Lemma panResponder_release_flick (g : Gesture) (s : Sheet) :
  enablePanDownToClose props && Qltb 200 (dy g) && Qltb 0.7 (vy g) = false ->
  0.7 < Qabs (vy g) ->
  step (PanRelease g) s
  = snapToIndex (clamp_index (1 + (if Qltb 0 (vy g) then 1 else -1))%Z)
      (set_isPanning false s).
Proof. intros D V. simpl step. now rewrite (release_flick _ g s D V). Qed.

(** A handler created by the render of the live state would move by one
    from the live index. *)
Lemma fresh_release_flick (g : Gesture) (s : Sheet) :
  enablePanDownToClose props && Qltb 200 (dy g) && Qltb 0.7 (vy g) = false ->
  0.7 < Qabs (vy g) ->
  onPanResponderRelease (render s) g s
  = snapToIndex
      (clamp_index (currentSnapIndex s
                    + (if Qltb 0 (vy g) then 1 else -1))%Z)
      (set_isPanning false s).
Proof. intros D V. now rewrite (release_flick _ g s D V). Qed.

(** The two agree while the live index is the initial one. *)
Lemma panResponder_release_flick_at_one (g : Gesture) (s : Sheet) :
  currentSnapIndex s = 1%Z ->
  step (PanRelease g) s = onPanResponderRelease (render s) g s.
Proof.
  intros E. simpl step. unfold panResponder_scope, render. simpl.
  now rewrite E.
Qed.

(** *** What the handlers leave alone *)

Lemma snapToIndex_cases (i : Z) (s : Sheet) :
  (~ (0 <= i < Z.of_nat (length snapHeights))%Z /\ snapToIndex i s = s) \/
  (exists h, at_index snapHeights i = Some h /\
             snapToIndex i s = animateTo h CbHaptic (setCurrentSnapIndex i s)).
Proof.
  destruct (snapToIndex_guard i) eqn:G.
  - right. apply snapToIndex_guard_true in G.
    destruct (at_index_in_range snapHeights i G) as (h & Hh).
    exists h. split; [exact Hh|]. now apply snapToIndex_accepts.
  - left. assert (N : ~ (0 <= i < Z.of_nat (length snapHeights))%Z).
    { intros R. apply snapToIndex_guard_true in R. congruence. }
    split; [exact N|]. now apply snapToIndex_rejects.
Qed.

Lemma release_cases (sc : Scope) (g : Gesture) (s : Sheet) :
  (enablePanDownToClose props = true /\
   onPanResponderRelease sc g s = close (set_isPanning false s)) \/
  (exists k, onPanResponderRelease sc g s
             = snapToIndex k (set_isPanning false s)).
Proof.
  unfold onPanResponderRelease.
  destruct (enablePanDownToClose props); simpl andb.
  - destruct (Qltb 200 (dy g) && Qltb 0.7 (vy g)); [now left|].
    right. destruct (Qltb 0.7 (Qabs (vy g))); eauto.
  - right. destruct (Qltb 0.7 (Qabs (vy g))); eauto.
Qed.

Lemma snapToIndex_frame (i : Z) (s : Sheet) :
  visible (snapToIndex i s) = visible s /\
  effects (snapToIndex i s) = effects s /\
  isPanning (snapToIndex i s) = isPanning s /\
  lastOffset (snapToIndex i s) = lastOffset s /\
  translateY (snapToIndex i s) = translateY s /\
  timers (snapToIndex i s) = timers s /\
  keyboardHeight (snapToIndex i s) = keyboardHeight s.
Proof.
  destruct (snapToIndex_cases i s) as [[_ E]|(h & _ & E)]; rewrite E;
    repeat split.
Qed.

Lemma Qeq_bool_refl (x : Q) : Qeq_bool x x = true.
Proof. apply Qeq_bool_iff. reflexivity. Qed.

(** *** Invariants of the event loop *)

Lemma run_cons (e : Event) (es : list Event) (s : Sheet) :
  run (e :: es) s = run es (step e s).
Proof. reflexivity. Qed.

Lemma run_app (es es' : list Event) (s : Sheet) :
  run (es ++ es') s = run es' (run es s).
Proof. unfold run. apply fold_left_app. Qed.

Lemma snapToIndex_wf (i : Z) (s : Sheet) :
  index_wf s /\ animation_wf s ->
  index_wf (snapToIndex i s) /\ animation_wf (snapToIndex i s).
Proof.
  intros Inv.
  destruct (snapToIndex_cases i s) as [[_ E]|(h & Hh & E)]; rewrite E.
  - exact Inv.
  - split.
    + right. exact (at_index_Some _ _ _ Hh).
    + unfold animation_wf. simpl. exact Hh.
Qed.

Lemma wf_frame (s s' : Sheet) :
  currentSnapIndex s' = currentSnapIndex s ->
  animation s' = animation s \/ animation s' = None ->
  index_wf s /\ animation_wf s -> index_wf s' /\ animation_wf s'.
Proof.
  unfold index_wf, animation_wf. intros -> [->| ->] [I A]; auto.
Qed.

Lemma close_wf (s : Sheet) :
  index_wf s /\ animation_wf s ->
  index_wf (close s) /\ animation_wf (close s).
Proof.
  intros [I _]. split; [exact I|]. unfold animation_wf. reflexivity.
Qed.

Lemma step_wf (e : Event) (s : Sheet) :
  index_wf s /\ animation_wf s ->
  index_wf (step e s) /\ animation_wf (step e s).
Proof.
  intros Inv. destruct e; simpl step.
  - (* open *) apply (wf_frame s); auto.
  - apply close_wf, Inv.
  - apply snapToIndex_wf, Inv.
  - (* timeout of open *)
    destruct (timers s) as [|n]; [exact Inv|]. unfold open_timeout.
    assert (W := snapToIndex_wf 1 (set_timers n s)
                   (wf_frame s (set_timers n s) eq_refl (or_introl eq_refl) Inv)).
    unfold call_optional. destruct (onOpen props); [|exact W].
    apply (wf_frame (snapToIndex 1 (set_timers n s))); auto.
  - destruct (animation s); [|exact Inv]. apply (wf_frame s); auto.
  - (* settle *)
    unfold settle. destruct (animation s) as [[toValue cb]|] eqn:A;
      [|exact Inv].
    apply (wf_frame s); [|right|exact Inv];
      destruct cb; unfold run_completion, triggerHaptic, call_optional;
      repeat match goal with |- context [if ?b then _ else _] => destruct b end;
      reflexivity.
  - (* grant *)
    unfold onPanResponderGrant. destruct (isPanning s); [exact Inv|].
    apply (wf_frame s); [|right|exact Inv];
      unfold triggerHaptic; destruct (negb platform_is_web); reflexivity.
  - apply (wf_frame s); auto.
  - (* release *)
    assert (Inv' := wf_frame s (set_isPanning false s) eq_refl
                      (or_introl eq_refl) Inv).
    destruct (release_cases panResponder_scope g s) as [[_ E]|(k & E)];
      rewrite E; [apply close_wf|apply snapToIndex_wf]; exact Inv'.
  - (* terminate *)
    unfold onPanResponderTerminate. apply snapToIndex_wf.
    apply (wf_frame s); auto.
  - destruct (enableBackdropDismiss props); [apply close_wf|]; exact Inv.
  - apply (wf_frame s); auto.
  - apply (wf_frame s); auto.
Qed.

(** X1.  Whatever the events, the snap index is the initial 1 or an index
    of the table, and an animation in flight either closes towards
    [SCREEN_HEIGHT] or snaps towards the offset of the current index. *)
Theorem reachable_index_and_animation (es : list Event) :
  index_wf (run es mount) /\ animation_wf (run es mount).
Proof.
  assert (G : forall l s, index_wf s /\ animation_wf s ->
                          index_wf (run l s) /\ animation_wf (run l s)).
  { induction l as [|e l IH]; intros s Inv; [exact Inv|].
    rewrite run_cons. apply IH, step_wf, Inv. }
  apply G. split; [now left|]. unfold animation_wf. exact I.
Qed.

(** X2.  The sheet is shown by [open()] only and hidden only by the end
    of a closing animation: an event that changes [visible] is one of
    these two. *)
Theorem visible_changes_only_by_open_and_closed (e : Event) (s : Sheet) :
  visible (step e s) <> visible s ->
  (e = CallOpen /\ visible (step e s) = true) \/
  (e = AnimationSettles /\ visible (step e s) = false /\
   exists toValue, animation s = Some (toValue, CbClose)).
Proof.
  intros Ch. destruct e; simpl step in *.
  - left. split; reflexivity.
  - exfalso. apply Ch. reflexivity.
  - exfalso. apply Ch. apply snapToIndex_frame.
  - exfalso. apply Ch. destruct (timers s) as [|n]; [reflexivity|].
    unfold open_timeout, call_optional.
    destruct (onOpen props); simpl;
      rewrite (proj1 (snapToIndex_frame 1 (set_timers n s))); reflexivity.
  - exfalso. apply Ch. destruct (animation s); reflexivity.
  - right. split; [reflexivity|]. unfold settle in *.
    destruct (animation s) as [[toValue cb]|] eqn:A;
      [|exfalso; apply Ch; reflexivity].
    destruct cb.
    + exfalso. apply Ch. reflexivity.
    + exfalso. apply Ch. unfold run_completion, triggerHaptic.
      destruct (negb platform_is_web); reflexivity.
    + split; [|eauto]. unfold run_completion, call_optional.
      destruct (onClose props); reflexivity.
  - exfalso. apply Ch. unfold onPanResponderGrant, triggerHaptic.
    destruct (isPanning s); [reflexivity|].
    destruct (negb platform_is_web); reflexivity.
  - exfalso. apply Ch. reflexivity.
  - exfalso. apply Ch.
    destruct (release_cases panResponder_scope g s) as [[_ E]|(k & E)];
      rewrite E; [reflexivity|].
    rewrite (proj1 (snapToIndex_frame k _)). reflexivity.
  - exfalso. apply Ch. unfold onPanResponderTerminate.
    rewrite (proj1 (snapToIndex_frame _ _)). reflexivity.
  - exfalso. apply Ch. destruct (enableBackdropDismiss props); reflexivity.
  - exfalso. apply Ch. reflexivity.
  - exfalso. apply Ch. reflexivity.
Qed.

(** *** The keyboard *)

Lemma snapToIndex_keyboard (i : Z) (h : Q) (s : Sheet) :
  snapToIndex i (setKeyboardHeight h s)
  = setKeyboardHeight h (snapToIndex i s).
Proof.
  unfold snapToIndex. destruct (snapToIndex_guard i); [|reflexivity].
  destruct (at_index snapHeights i); reflexivity.
Qed.

Lemma step_keyboard (e : Event) (h : Q) (s : Sheet) :
  is_keyboard e = false ->
  step e (setKeyboardHeight h s) = setKeyboardHeight h (step e s).
Proof.
  intros K. destruct e; try discriminate K; simpl step.
  - reflexivity.
  - reflexivity.
  - apply snapToIndex_keyboard.
  - destruct (timers s) as [|n]; [reflexivity|]. unfold open_timeout.
    change (set_timers n (setKeyboardHeight h s))
      with (setKeyboardHeight h (set_timers n s)).
    rewrite snapToIndex_keyboard. unfold call_optional.
    destruct (onOpen props); reflexivity.
  - destruct (animation s); reflexivity.
  - unfold settle. simpl animation.
    destruct (animation s) as [[toValue cb]|]; [|reflexivity].
    destruct cb; unfold run_completion, triggerHaptic, call_optional;
      repeat match goal with |- context [if ?b then _ else _] => destruct b end;
      reflexivity.
  - unfold onPanResponderGrant, triggerHaptic. simpl isPanning.
    destruct (isPanning s); [reflexivity|].
    destruct (negb platform_is_web); reflexivity.
  - reflexivity.
  - unfold onPanResponderRelease. simpl lastOffset.
    change (set_isPanning false (setKeyboardHeight h s))
      with (setKeyboardHeight h (set_isPanning false s)).
    repeat match goal with
           | |- context [if ?b then _ else _] => destruct b
           end;
      solve [reflexivity | apply snapToIndex_keyboard].
  - unfold onPanResponderTerminate. simpl lastOffset.
    change (set_isPanning false (setKeyboardHeight h s))
      with (setKeyboardHeight h (set_isPanning false s)).
    apply snapToIndex_keyboard.
  - destruct (enableBackdropDismiss props); reflexivity.
Qed.

(** X3.  The keyboard only resizes the panel.  Over any events other
    than keyboard events, a keyboard shown beforehand at height [h] gives
    the state of the run without it with [keyboardHeight] set to [h]:
    offset, snap index, animation, visibility and emitted effects are the
    same, and the panel is [SCREEN_HEIGHT - h] high. *)
Theorem keyboard_only_resizes (es : list Event) (h : Q) (s : Sheet) :
  forallb (fun e => negb (is_keyboard e)) es = true ->
  run es (step (KeyboardShow h) s) = setKeyboardHeight h (run es s) /\
  panel_height (run es (step (KeyboardShow h) s)) = SCREEN_HEIGHT - h.
Proof.
  intros NK.
  assert (E : run es (step (KeyboardShow h) s)
              = setKeyboardHeight h (run es s)).
  { simpl step. revert s. induction es as [|e es IH]; intros s;
      [reflexivity|].
    simpl in NK. apply andb_true_iff in NK as [Ke Kes].
    apply negb_true_iff in Ke.
    rewrite !run_cons, (step_keyboard e h s Ke). apply IH, Kes. }
  split; [exact E|]. rewrite E. reflexivity.
Qed.

(** *** What the component emits *)

Lemma step_effects (e : Event) (s : Sheet) :
  exists l, effects (step e s) = effects s ++ l /\ Forall allowed l.
Proof.
  assert (Same : forall t, effects t = effects s ->
            exists l, effects t = effects s ++ l /\ Forall allowed l).
  { intros t E. exists []. rewrite app_nil_r. split; [exact E|constructor]. }
  assert (One : forall t x, effects t = effects s ++ [x] -> allowed x ->
            exists l, effects t = effects s ++ l /\ Forall allowed l).
  { intros t x E A. exists [x]. split; [exact E|]. now constructor. }
  assert (Snap : forall k t, effects t = effects s ->
            effects (snapToIndex k t) = effects s).
  { intros k t <-. apply snapToIndex_frame. }
  destruct e; simpl step.
  - apply Same. reflexivity.
  - apply Same. reflexivity.
  - apply Same. now apply Snap.
  - destruct (timers s) as [|n]; [now apply Same|].
    unfold open_timeout, call_optional.
    destruct (onOpen props) eqn:O.
    + apply (One _ OnOpen); [|exact O]. simpl. f_equal. now apply Snap.
    + apply Same. now apply Snap.
  - apply Same. destruct (animation s); reflexivity.
  - unfold settle. destruct (animation s) as [[toValue cb]|];
      [|now apply Same].
    destruct cb; unfold run_completion, triggerHaptic, call_optional.
    + now apply Same.
    + destruct platform_is_web eqn:W; simpl negb; cbv iota.
      * now apply Same.
      * apply (One _ Haptic); [reflexivity|exact W].
    + destruct (onClose props) eqn:C.
      * apply (One _ OnClose); [reflexivity|exact C].
      * now apply Same.
  - unfold onPanResponderGrant, triggerHaptic.
    destruct (isPanning s); [now apply Same|].
    destruct platform_is_web eqn:W; simpl negb; cbv iota.
    + now apply Same.
    + apply (One _ Haptic); [reflexivity|exact W].
  - now apply Same.
  - apply Same.
    destruct (release_cases panResponder_scope g s) as [[_ E]|(k & E)];
      rewrite E; [reflexivity|now apply Snap].
  - apply Same. unfold onPanResponderTerminate. now apply Snap.
  - apply Same. destruct (enableBackdropDismiss props); reflexivity.
  - now apply Same.
  - now apply Same.
Qed.

(** X4.  Events only add to what was emitted, and what they add is
    restricted: no haptic pulse on the web platform, no [onOpen] and no
    [onClose] call when the callback was not supplied. *)
Theorem emitted_effects_are_allowed (es : list Event) (s : Sheet) :
  exists l,
    effects (run es s) = effects s ++ l /\
    (platform_is_web = true -> ~ In Haptic l) /\
    (onOpen props = false -> ~ In OnOpen l) /\
    (onClose props = false -> ~ In OnClose l).
Proof.
  assert (G : exists l, effects (run es s) = effects s ++ l
                        /\ Forall allowed l).
  { revert s. induction es as [|e es IH]; intros s.
    - exists []. rewrite app_nil_r. split; [reflexivity|constructor].
    - rewrite run_cons. destruct (step_effects e s) as (l1 & E1 & A1).
      destruct (IH (step e s)) as (l2 & E2 & A2).
      exists (l1 ++ l2). rewrite E2, E1, app_assoc.
      split; [reflexivity|]. apply Forall_app. now split. }
  destruct G as (l & E & A). exists l. split; [exact E|].
  rewrite Forall_forall in A.
  repeat split; intros F Hin; apply A in Hin; simpl in Hin; congruence.
Qed.

(** *** Dragging *)

Lemma moves_keep_origin (gs : list Gesture) (s : Sheet) :
  let s' := run (map PanMove gs) s in
  lastOffset s' = lastOffset s /\
  isPanning s' = isPanning s /\
  currentSnapIndex s' = currentSnapIndex s /\
  visible s' = visible s /\
  effects s' = effects s /\
  (gs <> [] -> animation s' = None).
Proof.
  revert s. induction gs as [|g gs IH]; intros s; simpl map.
  - repeat split. congruence.
  - rewrite run_cons. destruct (IH (step (PanMove g) s))
      as (L & P & C & V & E & A).
    cbv zeta. rewrite L, P, C, V, E. repeat split.
    intros _. destruct gs as [|g' gs']; [reflexivity|].
    apply A. discriminate.
Qed.

(** X5.  A drag has no memory of its earlier moves.  After a grant that
    was accepted and any moves, the offset shown is the resisted
    [origin + dy] of the last move alone, where [origin] is the offset at
    the grant; the origin, the snap index and the panning flag stay what
    the grant made them and no animation runs. *)
Theorem drag_depends_on_last_move (gs : list Gesture) (g : Gesture)
    (s : Sheet) :
  isPanning s = false ->
  let s' := run (PanGrant :: map PanMove (gs ++ [g])) s in
  translateY s' = resisted (translateY s + dy g) /\
  lastOffset s' = translateY s /\
  isPanning s' = true /\
  currentSnapIndex s' = currentSnapIndex s /\
  animation s' = None.
Proof.
  intros P s'. subst s'. rewrite run_cons, map_app, run_app.
  set (granted := step PanGrant s).
  assert (G : lastOffset granted = translateY s /\
              isPanning granted = true /\
              currentSnapIndex granted = currentSnapIndex s).
  { subst granted. simpl step. unfold onPanResponderGrant, triggerHaptic.
    rewrite P. destruct (negb platform_is_web); repeat split. }
  destruct G as (GL & GP & GC).
  destruct (moves_keep_origin gs granted) as (L & Pn & C & _ & _ & _).
  simpl map. rewrite run_cons. simpl run. simpl step.
  unfold onPanResponderMove. simpl.
  rewrite L, Pn, C, GL, GP, GC. repeat split.
Qed.

(** *** Releasing with dismissal disabled *)

(** X9.  With pan-down-to-close disabled and at least one snap point,
    every release snaps: it replaces whatever animation was running by a
    snap animation, so it never hides the sheet and never calls
    [onClose]. *)
Theorem release_snaps_when_dismiss_disabled (sc : Scope) (g : Gesture)
    (s : Sheet) :
  enablePanDownToClose props = false -> snapPoints props <> [] ->
  exists i h,
    at_index snapHeights i = Some h /\
    onPanResponderRelease sc g s
    = animateTo h CbHaptic (setCurrentSnapIndex i (set_isPanning false s)) /\
    visible (settle (onPanResponderRelease sc g s)) = visible s /\
    effects (settle (onPanResponderRelease sc g s))
    = effects s ++ (if platform_is_web then [] else [Haptic]).
Proof.
  intros E Hne. apply snapHeights_nonempty in Hne.
  assert (K : exists i, (0 <= i < Z.of_nat (length snapHeights))%Z /\
                onPanResponderRelease sc g s
                = snapToIndex i (set_isPanning false s)).
  { destruct (Qltb 0.7 (Qabs (vy g))) eqn:V.
    - eexists. split; [|apply release_flick].
      + apply clamp_index_in_range, Hne.
      + now rewrite E.
      + now apply Qltb_true.
    - exists (findNearestSnap (lastOffset s + dy g)). split.
      + destruct (findNearestSnap_spec (lastOffset s + dy g) Hne)
          as (h & Hh & _).
        exact (at_index_Some _ _ _ Hh).
      + apply release_slow. now apply Qltb_false. }
  destruct K as (i & R & K).
  destruct (at_index_in_range snapHeights i R) as (h & Hh).
  exists i, h. rewrite K, (snapToIndex_accepts i h _ Hh).
  split; [exact Hh|]. split; [reflexivity|].
  unfold settle, run_completion, triggerHaptic. simpl animation.
  destruct platform_is_web; simpl; rewrite ?app_nil_r; split; reflexivity.
Qed.

(** *** Closing and snapping to the end *)

(** X10.  [close()], or a press on the backdrop when backdrop dismiss is
    enabled, followed by the end of the animation leaves the sheet at
    [SCREEN_HEIGHT], hidden, with a transparent backdrop; [onClose] is
    called if supplied; the snap index keeps its last value.  With
    backdrop dismiss disabled the press does nothing. *)
Theorem close_settles_hidden (s : Sheet) :
  let closed s' :=
    translateY s' = SCREEN_HEIGHT /\
    lastOffset s' = SCREEN_HEIGHT /\
    backdropOpacity s' = 0 /\
    visible s' = false /\
    animation s' = None /\
    currentSnapIndex s' = currentSnapIndex s /\
    effects s' = effects s ++ (if onClose props then [OnClose] else []) in
  closed (run [CallClose; AnimationSettles] s) /\
  (enableBackdropDismiss props = true ->
   closed (run [BackdropPress; AnimationSettles] s)) /\
  (enableBackdropDismiss props = false -> step BackdropPress s = s).
Proof.
  assert (C : forall t, t = settle (close s) ->
            translateY t = SCREEN_HEIGHT /\
            lastOffset t = SCREEN_HEIGHT /\
            backdropOpacity t = 0 /\
            visible t = false /\
            animation t = None /\
            currentSnapIndex t = currentSnapIndex s /\
            effects t = effects s ++ (if onClose props then [OnClose] else [])).
  { intros t ->. unfold settle, close, animateTo, run_completion, call_optional.
    simpl animation.
    destruct (onClose props); simpl;
      rewrite ?app_nil_r, ?Qeq_bool_refl; repeat split. }
  cbv zeta. split; [apply C; reflexivity|]. split.
  - intros B. apply C. unfold run. simpl. now rewrite B.
  - intros B. simpl. now rewrite B.
Qed.

(** X11.  A [close()] that falls between [open()] and the timeout of
    [open()] is lost.  With at least two snap points the timeout replaces
    the closing animation by the snap to index 1: the sheet ends visible
    on the second offset and [onClose] is not called. *)
Theorem close_before_open_timeout_is_lost (s : Sheet) :
  (2 <= length (snapPoints props))%nat ->
  let s' := run [CallOpen; CallClose; TimerFires; AnimationSettles] s in
  visible s' = true /\
  currentSnapIndex s' = 1%Z /\
  at_index snapHeights 1 = Some (translateY s') /\
  animation s' = None /\
  effects s'
  = effects s ++ (if onOpen props then [OnOpen] else [])
              ++ (if platform_is_web then [] else [Haptic]).
Proof.
  intros L s'. subst s'.
  destruct (at_index_in_range snapHeights 1) as (h1 & H1).
  { rewrite length_snapHeights. lia. }
  unfold run. simpl fold_left. unfold open_timeout.
  rewrite (snapToIndex_accepts 1 h1 _ H1), H1.
  unfold settle, call_optional, run_completion, triggerHaptic.
  destruct (onOpen props), platform_is_web; simpl;
    rewrite ?app_nil_r, <- ?app_assoc; repeat split.
Qed.

(** X12.  [snapToIndex(i)] with [i] in range, followed by the end of its
    animation, rests the panel on offset [i] with that index current and
    one haptic pulse (none on web).  It does not show a hidden sheet; the
    backdrop is opaque unless the offset is [SCREEN_HEIGHT] itself. *)
Theorem snapToIndex_settles_on_offset (i : Z) (h : Q) (s : Sheet) :
  at_index snapHeights i = Some h ->
  let s' := run [CallSnapToIndex i; AnimationSettles] s in
  currentSnapIndex s' = i /\
  translateY s' = h /\
  lastOffset s' = h /\
  animation s' = None /\
  visible s' = visible s /\
  (~ h == SCREEN_HEIGHT -> backdropOpacity s' = 1) /\
  (h == SCREEN_HEIGHT -> backdropOpacity s' = 0) /\
  effects s' = effects s ++ (if platform_is_web then [] else [Haptic]).
Proof.
  intros Hh s'. subst s'. unfold run. simpl fold_left.
  rewrite (snapToIndex_accepts i h _ Hh).
  unfold settle, run_completion, triggerHaptic. simpl animation. cbv iota beta.
  destruct platform_is_web; simpl; rewrite ?app_nil_r;
    destruct (Qeq_bool h SCREEN_HEIGHT) eqn:EqH;
    repeat split; trivial; intros N;
    try reflexivity;
    try (apply Qeq_bool_iff in EqH; contradiction);
    try (apply Qeq_bool_neq in EqH; contradiction).
Qed.

(** *** Opening while an animation is in flight *)

Lemma passive_run (between : list Event) (t : Sheet) :
  forallb passive between = true ->
  timers (run between t) = timers t /\
  visible (run between t)
  = (if closing t && existsb is_settle between then false else visible t).
Proof.
  revert t. induction between as [|e rest IH]; intros t P.
  - simpl. rewrite andb_false_r. split; reflexivity.
  - simpl in P. apply andb_true_iff in P as [Pe Prest].
    rewrite run_cons. destruct (IH (step e t) Prest) as (T & V).
    rewrite T, V. clear IH T V.
    destruct e; try discriminate Pe; simpl step; simpl existsb.
    + (* a frame *)
      unfold closing. destruct (animation t) as [[toValue cb]|] eqn:A;
        simpl; rewrite ?A; split; reflexivity.
    + (* the end of the animation in flight *)
      unfold closing, settle. rewrite andb_true_r.
      destruct (animation t) as [[toValue cb]|] eqn:A;
        [|rewrite ?A; split; reflexivity].
      destruct cb; unfold run_completion, triggerHaptic, call_optional;
        destruct platform_is_web, (onClose props); simpl;
        destruct (existsb is_settle rest); split; reflexivity.
Qed.

(** C7, as the code has it.  With at least two snap points, [open()],
    then frames or ends of animations, then the timeout of [open()] and
    the end of the animation it starts leave the snap index at 1 and the
    panel resting on the second offset.  The sheet is then visible unless
    a closing animation was in flight at the call and ended before the
    timeout: in that case it is hidden. *)
Theorem open_settles_visible_unless_close_ends_first
    (between : list Event) (s : Sheet) :
  (2 <= length (snapPoints props))%nat ->
  forallb passive between = true ->
  let s' := run (CallOpen :: between ++ [TimerFires; AnimationSettles]) s in
  currentSnapIndex s' = 1%Z /\
  animation s' = None /\
  at_index snapHeights 1 = Some (translateY s') /\
  lastOffset s' = translateY s' /\
  visible s' = negb (closing s && existsb is_settle between).
Proof.
  intros L P s'. subst s'.
  destruct (at_index_in_range snapHeights 1) as (h1 & H1).
  { rewrite length_snapHeights. lia. }
  rewrite run_cons, run_app.
  destruct (passive_run between (step CallOpen s) P) as (T & V).
  set (t := run between (step CallOpen s)) in *.
  simpl step in T, V. simpl timers in T. simpl visible in V.
  change (closing (open s)) with (closing s) in V.
  unfold run. simpl fold_left. rewrite T. unfold open_timeout.
  rewrite (snapToIndex_accepts 1 h1 _ H1), H1.
  unfold settle, call_optional, run_completion, triggerHaptic.
  destruct (onOpen props), platform_is_web; simpl; rewrite V;
    destruct (closing s && existsb is_settle between); repeat split.
Qed.

End BottomSheet.


(** ** The claims on concrete sheets *)

(** C1.  The flick branch does not move from the index the sheet has at
    release.  On the default sheet brought to index 2, a flick up lands on
    index 0 (one below the captured 1), not on index 1; brought to index 0,
    a flick down lands on index 2, not on index 1. *)
Theorem release_flick_reads_first_render_index :
  let opened := run screen false three_snaps
                  [CallOpen; TimerFires; AnimationSettles] (mount screen) in
  let at_two := run screen false three_snaps
                  [CallSnapToIndex 2; AnimationSettles; PanGrant] opened in
  let at_zero := run screen false three_snaps
                   [CallSnapToIndex 0; AnimationSettles; PanGrant] opened in
  (currentSnapIndex at_two = 2 /\
   currentSnapIndex (step screen false three_snaps (PanRelease flick_up) at_two)
   = 0)%Z /\
  (currentSnapIndex at_zero = 0 /\
   currentSnapIndex
     (step screen false three_snaps (PanRelease flick_down) at_zero)
   = 2)%Z.
Proof. vm_compute. repeat split. Qed.

(** §8.6 of the specification: from index 1 of 3 a release at velocity 1
    goes to index 2. *)
Example release_flick_from_index_one :
  let opened := run screen false three_snaps
                  [CallOpen; TimerFires; AnimationSettles; PanGrant]
                  (mount screen) in
  (currentSnapIndex opened = 1 /\
   currentSnapIndex
     (step screen false three_snaps (PanRelease flick_down) opened) = 2)%Z.
Proof. vm_compute. split; reflexivity. Qed.

(** §8.8: offsets 100, 400, 700; position 550 is a tie between 400 and
    700 and resolves to index 1; position 600 resolves to index 2. *)
Example findNearestSnap_100_400_700 :
  Forall2 Qeq (snapHeights screen snaps_100_400_700) [100; 400; 700]
  /\ findNearestSnap screen snaps_100_400_700 550 = 1%Z
  /\ findNearestSnap screen snaps_100_400_700 600 = 2%Z.
Proof.
  split; [|split; reflexivity].
  repeat (constructor; [reflexivity|]). constructor.
Qed.

(** §8.10: a candidate 40 above the first offset (560) is applied as 20
    above it. *)
Example move_half_resistance :
  let dragging := run screen false three_snaps
                    [CallOpen; TimerFires; AnimationSettles;
                     CallSnapToIndex 0; AnimationSettles; PanGrant]
                    (mount screen) in
  let g := {| dx := 0; dy := -40; vy := 0 |} in
  lastOffset dragging + dy g == 560 - 40 /\
  translateY (step screen false three_snaps (PanMove g) dragging) == 560 - 20.
Proof. split; reflexivity. Qed.

(** C5, counterexample.  On the default sheet [onOpen] has been called
    when the timeout of [open()] returns, while the opening animation is
    still running and the sheet has not left [SCREEN_HEIGHT]; and
    [close()], end of animation, [close()], end of animation calls
    [onClose] twice. *)
Lemma onOpen_precedes_settle_onClose_repeats :
  let s1 := run screen false three_snaps [CallOpen; TimerFires]
              (mount screen) in
  let s2 := run screen false three_snaps
              [AnimationSettles;
               CallClose; AnimationSettles; CallClose; AnimationSettles] s1 in
  (effects s1 = [OnOpen] /\
   (exists h, animation s1 = Some (h, CbHaptic)) /\
   translateY s1 = screen) /\
  effects s2 = [OnOpen; Haptic; OnClose; OnClose] /\
  count_occ Effect_eq_dec (effects s2) OnClose = 2%nat.
Proof.
  vm_compute. repeat split. eexists. reflexivity.
Qed.

(** C9, counterexample.  With no snap point the first render returns
    (it does not throw) and leaves an empty table; the first gesture on
    the opened sheet, when terminated, has [findNearestSnap] answer 0 on
    that table and changes nothing but the panning flag and the haptic
    pulse of the grant. *)
Lemma no_snaps_constructs_and_handles_gesture :
  let opened := run screen false no_snaps [CallOpen; TimerFires]
                  (mount screen) in
  snapPoints no_snaps = [] /\
  BottomSheet screen no_snaps
  = Returns {| hooks := mount screen; table := [] |} /\
  BottomSheet screen no_snaps <> Throws /\
  findNearestSnap screen no_snaps (lastOffset opened) = 0%Z /\
  run screen false no_snaps [PanGrant; PanTerminate] opened
  = emit Haptic opened.
Proof.
  vm_compute. repeat split. discriminate.
Qed.

(** ** The hypotheses of the claims are met on concrete sheets *)

(** C2 on the default sheet: a pull of 250 at velocity 0.9, handled by a
    closure that captured index 0. *)
Lemma release_fast_dismiss_closes_witness :
  let sc := {| sc_currentSnapIndex := 0 |} in
  let s' := onPanResponderRelease screen three_snaps sc pull_down
              (mount screen) in
  enablePanDownToClose three_snaps = true /\
  200 < dy pull_down /\
  0.7 < vy pull_down /\
  s' = close screen (set_isPanning false (mount screen)) /\
  animation s' = Some (screen, CbClose) /\
  currentSnapIndex s' = currentSnapIndex (mount screen) /\
  translateY (settle screen false three_snaps s') = screen /\
  visible (settle screen false three_snaps s') = false.
Proof.
  intros sc s'.
  split; [reflexivity|]. split; [reflexivity|]. split; [reflexivity|].
  apply (release_fast_dismiss_closes screen false three_snaps sc pull_down
           (mount screen)); reflexivity.
Defined.

(** C6 on the default sheet: index 3 of a table of three. *)
Lemma snapToIndex_out_of_range_noop_witness :
  ~ (0 <= 3 < Z.of_nat (length (snapHeights screen three_snaps)))%Z /\
  snapToIndex screen three_snaps 3 (mount screen) = mount screen.
Proof.
  assert (N : ~ (0 <= 3 < Z.of_nat (length (snapHeights screen three_snaps)))%Z)
    by (simpl; lia).
  split; [exact N|].
  apply (snapToIndex_out_of_range_noop screen false three_snaps 3
           (mount screen) N).
Defined.

(** C10 on the default sheet. *)
Lemma findNearestSnap_in_range_witness :
  snapPoints three_snaps <> [] /\
  (0 <= findNearestSnap screen three_snaps 470
   < Z.of_nat (length (snapHeights screen three_snaps)))%Z.
Proof.
  assert (Hne : snapPoints three_snaps <> []) by discriminate.
  split; [exact Hne|].
  apply (findNearestSnap_in_range screen three_snaps 470 Hne).
Defined.

(** C4 on the default sheet resting on its first offset: a drag 40 up
    meets the half resistance, a drag 300 down the one-fifth resistance,
    a drag 100 down none. *)
Lemma move_applies_edge_resistance_witness :
  let resting := run screen false three_snaps
                   [CallOpen; TimerFires; AnimationSettles;
                    CallSnapToIndex 0; AnimationSettles; PanGrant]
                   (mount screen) in
  let h0 := screen * (1 - 0.3) in
  let move d :=
    translateY (onPanResponderMove screen three_snaps
                  {| dx := 0; dy := d; vy := 0 |} resting) in
  at_index (snapHeights screen three_snaps) 0 = Some h0 /\
  move (-40) = h0 - (h0 - (lastOffset resting + -40)) * 0.5 /\
  move 300 = screen + (lastOffset resting + 300 - screen) * 0.2 /\
  move 100 = lastOffset resting + 100.
Proof.
  intros resting h0 move.
  assert (H0 : at_index (snapHeights screen three_snaps) 0 = Some h0)
    by reflexivity.
  assert (Not_above : forall d, h0 <= lastOffset resting + d ->
            ~ exists h, at_index (snapHeights screen three_snaps) 0 = Some h
                        /\ lastOffset resting + d < h).
  { intros d Le (h & Eh & Lt). rewrite H0 in Eh. injection Eh as <-.
    apply (Qlt_not_le _ _ Lt Le). }
  split; [exact H0|]. split; [|split].
  - apply (proj1 (move_applies_edge_resistance screen three_snaps
                    {| dx := 0; dy := -40; vy := 0 |} resting) h0 H0).
    reflexivity.
  - apply (proj1 (proj2 (move_applies_edge_resistance screen three_snaps
                           {| dx := 0; dy := 300; vy := 0 |} resting))).
    + apply Not_above. vm_compute. discriminate.
    + reflexivity.
    + reflexivity.
  - apply (proj1 (proj2 (proj2 (move_applies_edge_resistance screen three_snaps
                           {| dx := 0; dy := 100; vy := 0 |} resting)))).
    + apply Not_above. vm_compute. discriminate.
    + intros [Lt _]. vm_compute in Lt. discriminate.
Defined.

(** C5 (amended) on the default sheet, from the first render. *)
Lemma lifecycle_callbacks_as_coded_witness :
  onOpen three_snaps = true /\
  onClose three_snaps = true /\
  effects (run screen false three_snaps [CallOpen; TimerFires] (mount screen))
  = effects (mount screen) ++ [OnOpen] /\
  effects (run screen false three_snaps
             [CallClose; CallClose; AnimationSettles] (mount screen))
  = effects (mount screen) ++ [OnClose].
Proof.
  split; [reflexivity|]. split; [reflexivity|].
  destruct (lifecycle_callbacks_as_coded screen false three_snaps
              (mount screen) eq_refl eq_refl)
    as (_ & O & _ & _ & _ & _ & C & _).
  split; [exact O|exact C].
Defined.

(** C9 (amended) on the sheet without snap points. *)
Lemma empty_snapPoints_is_accepted_witness :
  snapPoints no_snaps = [] /\
  BottomSheet screen no_snaps
  = Returns {| hooks := mount screen; table := [] |} /\
  findNearestSnap screen no_snaps 500 = 0%Z.
Proof.
  split; [reflexivity|].
  destruct (empty_snapPoints_is_accepted screen no_snaps eq_refl)
    as (B & F & _).
  split; [exact B|exact (F 500)].
Defined.

(** ** The product store *)

Section ProductStore.

Variable JSON_stringify : list Products.Product -> String.string.
Variable JSON_parse : String.string -> Outcome (list Products.Product).

Lemma filter_other_ids (i : String.string) (l : list Products.Product) :
  map Products.id (filter (fun p => negb (String.eqb (Products.id p) i)) l)
  = remove String.string_dec i (map Products.id l).
Proof.
  induction l as [|p l IH]; [reflexivity|]. simpl.
  destruct (String.string_dec i (Products.id p)) as [E|N].
  - subst i. rewrite String.eqb_refl. simpl. exact IH.
  - destruct (String.eqb_spec (Products.id p) i) as [E|_]; [congruence|].
    simpl. now rewrite IH.
Qed.

Lemma spread_twice (p : Products.Product) (u : Products.PartialProduct) :
  Products.spread (Products.spread p u) u = Products.spread p u.
Proof.
  destruct u as [[i|] [n|] [c|] [t|]]; reflexivity.
Qed.

(** X13.  [deleteProduct] on the list of the current render: the ids
    left are the old ids without any occurrence of the deleted one, in
    the same order; every product left was there before; deleting an id
    nobody has leaves the list as it was. *)
Theorem deleteProduct_removes_every_match (i : String.string)
    (write_ok : bool) (s : Products.State) :
  let s' := Products.deleteProduct JSON_stringify (Products.products s) i
              write_ok s in
  map Products.id (Products.products s')
  = remove String.string_dec i (map Products.id (Products.products s)) /\
  (forall p, In p (Products.products s') <->
             In p (Products.products s) /\ Products.id p <> i) /\
  ((forall p, In p (Products.products s) -> Products.id p <> i) ->
   Products.products s' = Products.products s).
Proof.
  assert (P : forall w l t, Products.products
                (Products.saveProducts JSON_stringify l w t) = l)
    by (intros [|] l t; reflexivity).
  cbv zeta. unfold Products.deleteProduct. rewrite P.
  split; [apply filter_other_ids|]. split.
  - intros p. rewrite filter_In, negb_true_iff.
    destruct (String.eqb_spec (Products.id p) i); split;
      intros [H1 H2]; split; trivial; congruence.
  - intros Absent. induction (Products.products s) as [|p l IH];
      [reflexivity|]. simpl.
    destruct (String.eqb_spec (Products.id p) i) as [E|_].
    + exfalso. apply (Absent p); [now left|exact E].
    + simpl. f_equal. apply IH. intros q Hq. apply Absent. now right.
Qed.

(** X14.  [updateProduct] on the list of the current render keeps the
    length; keeps the sequence of ids when the patch carries no id;
    leaves the list as it was when nobody has the id; and applied a
    second time with the same id and patch changes nothing more. *)
Theorem updateProduct_patches_in_place (i : String.string)
    (updated : Products.PartialProduct) (write_ok write_ok' : bool)
    (s : Products.State) :
  let s' := Products.updateProduct JSON_stringify (Products.products s) i
              updated write_ok s in
  length (Products.products s') = length (Products.products s) /\
  (Products.new_id updated = None ->
   map Products.id (Products.products s')
   = map Products.id (Products.products s)) /\
  ((forall p, In p (Products.products s) -> Products.id p <> i) ->
   Products.products s' = Products.products s) /\
  Products.products
    (Products.updateProduct JSON_stringify (Products.products s') i
       updated write_ok' s')
  = Products.products s'.
Proof.
  assert (P : forall w l t, Products.products
                (Products.saveProducts JSON_stringify l w t) = l)
    by (intros [|] l t; reflexivity).
  cbv zeta. unfold Products.updateProduct. rewrite !P.
  split; [apply length_map|]. split; [|split].
  - intros NoId. rewrite map_map. apply map_ext. intros p.
    destruct (String.eqb (Products.id p) i); [|reflexivity].
    unfold Products.spread. simpl. now rewrite NoId.
  - intros Absent. rewrite <- (map_id (Products.products s)) at 2.
    apply map_ext_in. intros p Hp.
    destruct (String.eqb_spec (Products.id p) i) as [E|_]; [|reflexivity].
    exfalso. exact (Absent p Hp E).
  - rewrite map_map. apply map_ext. intros p.
    destruct (String.eqb_spec (Products.id p) i) as [E|N].
    + destruct (String.eqb (Products.id (Products.spread p updated)) i);
        [apply spread_twice|reflexivity].
    + destruct (String.eqb_spec (Products.id p) i); [contradiction|].
      reflexivity.
Qed.

(** X15.  Adding a product whose id is new and then deleting that id,
    each from the render that follows the previous change, gives back
    the list one started from; with both writes successful the storage
    holds its serialisation. *)
Theorem add_then_delete_restores (p : Products.Product)
    (s : Products.State) :
  (forall q, In q (Products.products s) ->
             Products.id q <> Products.id p) ->
  let s1 := Products.addProduct JSON_stringify (Products.products s) p
              true s in
  let s2 := Products.deleteProduct JSON_stringify (Products.products s1)
              (Products.id p) true s1 in
  Products.products s2 = Products.products s /\
  Products.storage s2 = Some (JSON_stringify (Products.products s)).
Proof.
  intros Fresh s1 s2.
  assert (E : filter (fun q => negb (String.eqb (Products.id q) (Products.id p)))
                (Products.products s ++ [p]) = Products.products s).
  { rewrite filter_app. simpl. rewrite String.eqb_refl. simpl.
    rewrite app_nil_r. induction (Products.products s) as [|q l IH];
      [reflexivity|]. simpl.
    destruct (String.eqb_spec (Products.id q) (Products.id p)) as [E|_].
    - exfalso. apply (Fresh q); [now left|exact E].
    - simpl. f_equal. apply IH. intros r Hr. apply Fresh. now right. }
  subst s2 s1. unfold Products.deleteProduct, Products.addProduct,
    Products.saveProducts. simpl. rewrite E. split; reflexivity.
Qed.

(** X16.  Two additions made from the same render do not add up: the
    second replaces the list by the captured one plus its own product,
    and the first product is gone, in memory and in storage.  Made from
    successive renders they do add up. *)
Theorem additions_from_one_render_overwrite (captured : list Products.Product)
    (p1 p2 : Products.Product) (write_ok : bool) (s : Products.State) :
  let stale :=
    Products.addProduct JSON_stringify captured p2 true
      (Products.addProduct JSON_stringify captured p1 write_ok s) in
  let s1 := Products.addProduct JSON_stringify captured p1 write_ok s in
  let fresh :=
    Products.addProduct JSON_stringify (Products.products s1) p2 true s1 in
  Products.products stale = captured ++ [p2] /\
  Products.storage stale = Some (JSON_stringify (captured ++ [p2])) /\
  (~ In p1 captured -> p1 <> p2 -> ~ In p1 (Products.products stale)) /\
  Products.products fresh = captured ++ [p1; p2].
Proof.
  cbv zeta. unfold Products.addProduct, Products.saveProducts.
  destruct write_ok; simpl; (split; [reflexivity|]); (split; [reflexivity|]);
    (split; [|now rewrite <- app_assoc]);
    intros N1 N2 Hin; apply in_app_or in Hin as [H|[H|[]]];
    [exact (N1 H)|exact (N2 (eq_sym H))|exact (N1 H)|exact (N2 (eq_sym H))].
Qed.

(** X17.  What a restart sees.  When [JSON.parse] gives back the list
    [JSON.stringify] was given, and its text is not empty, a saved list
    is the list a later first render loads; when the write failed the
    memory holds the new list but a later first render loads what an
    untouched storage would have given. *)
Theorem saved_list_is_reloaded (l : list Products.Product)
    (s : Products.State) :
  JSON_parse (JSON_stringify l) = Returns l ->
  JSON_stringify l <> String.EmptyString ->
  let restart t :=
    Products.load JSON_parse true (Products.mount (Products.storage t)) in
  Products.products
    (restart (Products.saveProducts JSON_stringify l true s)) = l /\
  Products.loading
    (restart (Products.saveProducts JSON_stringify l true s)) = false /\
  Products.products (Products.saveProducts JSON_stringify l false s) = l /\
  restart (Products.saveProducts JSON_stringify l false s) = restart s.
Proof.
  intros RT NE restart. subst restart. cbv beta.
  unfold Products.saveProducts, Products.load, Products.mount. simpl.
  destruct (String.eqb_spec (JSON_stringify l) String.EmptyString) as [E|_];
    [contradiction|].
  rewrite RT. repeat split.
Qed.

(** X18.  The first load always ends the loading state and never writes
    the storage.  When the read succeeds, the stored text is not empty
    and [JSON.parse] accepts it, the list becomes the parsed one; when
    the read fails, nothing is stored, the stored text is empty or
    [JSON.parse] refuses it, the list stays as it was. *)
Theorem load_always_finishes (read_ok : bool) (s : Products.State) :
  let s' := Products.load JSON_parse read_ok s in
  Products.loading s' = false /\
  Products.storage s' = Products.storage s /\
  (forall stored l,
     read_ok = true ->
     Products.storage s = Some stored ->
     stored <> String.EmptyString ->
     JSON_parse stored = Returns l ->
     Products.products s' = l) /\
  (read_ok = false \/
   Products.storage s = None \/
   Products.storage s = Some String.EmptyString \/
   (exists stored, Products.storage s = Some stored /\
                   JSON_parse stored = Throws) ->
   Products.products s' = Products.products s).
Proof.
  cbv zeta. unfold Products.load.
  split; [reflexivity|]. split; [|split].
  - destruct read_ok; [|reflexivity].
    destruct (Products.storage s) as [stored|] eqn:St;
      [|simpl; now rewrite St].
    destruct (String.eqb stored String.EmptyString);
      [simpl; now rewrite St|].
    destruct (JSON_parse stored); simpl; now rewrite St.
  - intros stored l -> St NE Pa. rewrite St.
    destruct (String.eqb_spec stored String.EmptyString) as [E|_];
      [contradiction|].
    rewrite Pa. reflexivity.
  - intros [->|[St|[St|(stored & St & Pa)]]].
    + reflexivity.
    + destruct read_ok; [|reflexivity]. rewrite St. reflexivity.
    + destruct read_ok; [|reflexivity]. rewrite St. reflexivity.
    + destruct read_ok; [|reflexivity]. rewrite St.
      destruct (String.eqb stored String.EmptyString); [reflexivity|].
      rewrite Pa. reflexivity.
Qed.

End ProductStore.

(** ** The toast list *)

Lemma nth_error_cut {A : Type} (l : list A) (n : nat) (a : A) :
  nth_error l n = Some a -> l = firstn n l ++ a :: skipn (S n) l.
Proof.
  revert l. induction n as [|n IH]; intros [|x l] E; try discriminate.
  - simpl in E. injection E as ->. reflexivity.
  - simpl in E. simpl. f_equal. now apply IH.
Qed.

Lemma toast_timer_step (e : Toasts.Event) (s : Toasts.State) :
  (forall t, In t (Toasts.toasts s) ->
             In (Toasts.id t) (map Toasts.removes (Toasts.timers s))) ->
  forall t, In t (Toasts.toasts (Toasts.step e s)) ->
            In (Toasts.id t)
               (map Toasts.removes (Toasts.timers (Toasts.step e s))).
Proof.
  intros Inv t Hin. destruct e as [now msg ty duration|i|n]; simpl in *.
  - rewrite map_app. apply in_or_app.
    apply in_app_or in Hin as [H|[H|[]]].
    + left. now apply Inv.
    + right. subst t. now left.
  - apply Inv. unfold Toasts.without in Hin. now apply filter_In in Hin.
  - unfold Toasts.timeout in *.
    destruct (nth_error (Toasts.timers s) n) as [tm|] eqn:E;
      [|now apply Inv].
    simpl in *. unfold Toasts.without in Hin.
    apply filter_In in Hin as [Hin Ne].
    apply negb_true_iff, Z.eqb_neq in Ne.
    specialize (Inv t Hin). rewrite (nth_error_cut _ _ _ E) in Inv.
    rewrite map_app in *. simpl in Inv.
    apply in_or_app. apply in_app_or in Inv as [H|[H|H]]; auto.
    congruence.
Qed.

Lemma toast_drain (k : nat) (s : Toasts.State) :
  length (Toasts.timers s) = k ->
  (forall t, In t (Toasts.toasts s) ->
             In (Toasts.id t) (map Toasts.removes (Toasts.timers s))) ->
  Nat.iter k (Toasts.timeout 0) s = Toasts.mount.
Proof.
  revert s. induction k as [|k IH]; intros [ts tms] L Inv; simpl in *.
  - destruct tms; [|discriminate]. destruct ts as [|t ts]; [reflexivity|].
    destruct (Inv t (or_introl eq_refl)).
  - change (Toasts.timeout 0 (Nat.iter k (Toasts.timeout 0)
              {| Toasts.toasts := ts; Toasts.timers := tms |}))
      with (Nat.iter (S k) (Toasts.timeout 0)
              {| Toasts.toasts := ts; Toasts.timers := tms |}).
    rewrite Nat.iter_succ_r. apply IH.
    + destruct tms as [|tm tms]; [discriminate|]. simpl in *. lia.
    + apply (toast_timer_step (Toasts.Timeout 0)). exact Inv.
Qed.

(** X19.  No toast outlives its timeout.  After any shows, closes and
    timeouts, every toast on screen has a pending timeout that removes
    its id; and once the pending timeouts have all run the list is empty
    and no timeout is left. *)
Theorem toasts_do_not_leak (es : list Toasts.Event) :
  let s := Toasts.run es Toasts.mount in
  (forall t, In t (Toasts.toasts s) ->
             In (Toasts.id t) (map Toasts.removes (Toasts.timers s))) /\
  Toasts.drain s = Toasts.mount.
Proof.
  assert (G : forall l s,
            (forall t, In t (Toasts.toasts s) ->
               In (Toasts.id t) (map Toasts.removes (Toasts.timers s))) ->
            forall t, In t (Toasts.toasts (Toasts.run l s)) ->
              In (Toasts.id t)
                 (map Toasts.removes (Toasts.timers (Toasts.run l s)))).
  { induction l as [|e l IH]; intros s Inv; [exact Inv|].
    apply (IH (Toasts.step e s)). now apply toast_timer_step. }
  cbv zeta.
  assert (Inv := G es Toasts.mount (fun t (H : In t []) => match H with end)).
  split; [exact Inv|]. unfold Toasts.drain. now apply toast_drain.
Qed.

(** X20.  Toast ids are clock readings, not unique keys: two toasts shown
    at the same reading leave together, by a close of that id or by the
    timeout of the first one, and the toasts with other ids stay. *)
Theorem toasts_of_one_instant_leave_together (s : Toasts.State) (now : Z)
    (m1 m2 : String.string) (ty1 ty2 : option Toasts.ToastType)
    (d1 d2 : option Q) :
  let both := [Toasts.Show now m1 ty1 d1; Toasts.Show now m2 ty2 d2] in
  Toasts.toasts (Toasts.run (both ++ [Toasts.Close now]) s)
  = Toasts.without now (Toasts.toasts s) /\
  Toasts.toasts
    (Toasts.run (both ++ [Toasts.Timeout (length (Toasts.timers s))]) s)
  = Toasts.without now (Toasts.toasts s).
Proof.
  cbv zeta. unfold Toasts.run. simpl fold_left.
  assert (W : Toasts.without now
                ((Toasts.toasts s
                  ++ [{| Toasts.id := now;
                         Toasts.type := match ty1 with
                                        | Some t => t
                                        | None => Toasts.default
                                        end;
                         Toasts.message := m1 |}])
                 ++ [{| Toasts.id := now;
                        Toasts.type := match ty2 with
                                       | Some t => t
                                       | None => Toasts.default
                                       end;
                        Toasts.message := m2 |}])
              = Toasts.without now (Toasts.toasts s)).
  { unfold Toasts.without. rewrite !filter_app. simpl.
    rewrite Z.eqb_refl. simpl. now rewrite !app_nil_r. }
  split; [exact W|].
  unfold Toasts.timeout. simpl Toasts.timers.
  rewrite <- app_assoc, nth_error_app2 by lia.
  rewrite Nat.sub_diag. simpl. exact W.
Qed.

(** ** The catalogue screen and the product form *)

Section CatalogScreen.

Variable js : Catalog.StringOps.

Lemma filter_twice {A : Type} (f : A -> bool) (l : list A) :
  filter f (filter f l) = filter f l.
Proof.
  induction l as [|a l IH]; [reflexivity|]. simpl.
  destruct (f a) eqn:E; [|exact IH]. simpl. now rewrite E, IH.
Qed.

Lemma filter_swap {A : Type} (f g : A -> bool) (l : list A) :
  filter f (filter g l) = filter g (filter f l).
Proof.
  induction l as [|a l IH]; [reflexivity|]. simpl.
  destruct (f a) eqn:F, (g a) eqn:G; simpl; rewrite ?F, ?G, IH; reflexivity.
Qed.

(** X21.  The search keeps to the list it is given.  A query that trims
    to nothing returns the list itself; otherwise and always, every hit
    is a product of the list, searching the hits again with the same
    query changes nothing, the hits of a concatenation are the hits of
    the parts in order, and searching commutes with deleting an id. *)
Theorem search_filter_keeps_to_the_list
    (products products' : list Products.Product) (query i : String.string) :
  (Catalog.trim js query = String.EmptyString ->
   Catalog.filter js products query = products) /\
  (forall p, In p (Catalog.filter js products query) -> In p products) /\
  Catalog.filter js (Catalog.filter js products query) query
  = Catalog.filter js products query /\
  Catalog.filter js (products ++ products') query
  = Catalog.filter js products query ++ Catalog.filter js products' query /\
  Catalog.filter js
    (filter (fun p => negb (String.eqb (Products.id p) i)) products) query
  = filter (fun p => negb (String.eqb (Products.id p) i))
      (Catalog.filter js products query).
Proof.
  unfold Catalog.filter.
  destruct (String.eqb_spec (Catalog.trim js query) String.EmptyString)
    as [E|N].
  - repeat split; trivial.
  - split; [intros E; contradiction|].
    split; [intros p Hp; now apply filter_In in Hp|].
    split; [apply filter_twice|].
    split; [apply filter_app|apply filter_swap].
Qed.

(** X22.  [ProductValidator.validate] answers valid exactly when it
    reports no error text, that is when the name does not trim to
    nothing, the price does not trim to nothing and the price reads as a
    number. *)
Theorem validate_valid_iff_no_error (name price : String.string) :
  let r := Catalog.validate js name price in
  (fst r = true <->
   snd r = {| Catalog.name_error := String.EmptyString;
              Catalog.price_error := String.EmptyString |}) /\
  (fst r = true <->
   Catalog.trim js name <> String.EmptyString /\
   Catalog.trim js price <> String.EmptyString /\
   Catalog.isNaN_Number js price = false).
Proof.
  cbv zeta. unfold Catalog.validate.
  destruct (String.eqb_spec (Catalog.trim js name) String.EmptyString);
    destruct (String.eqb_spec (Catalog.trim js price) String.EmptyString);
    destruct (Catalog.isNaN_Number js price); simpl;
    (split; split; intros H);
    try discriminate; try reflexivity;
    try (destruct H as (H1 & H2 & H3); congruence);
    repeat split; trivial.
Qed.

(** X23.  What [handleSubmit] does before it first waits.  While a
    submission runs it does nothing at all.  It starts a submission only
    for a valid form with a thumbnail and, for a new product, fewer than
    five products; it then shows no toast.  When it refuses it shows
    exactly one toast.  The limit of five does not apply to an edit and
    always stops an addition. *)
Theorem handleSubmit_guards (isSubmitting isEditing : bool)
    (name price thumbnail : String.string) (count : nat) :
  let r := Catalog.handleSubmit js isSubmitting name price thumbnail
             isEditing count in
  (isSubmitting = true ->
   r = {| Catalog.started := false; Catalog.errors_set := None;
          Catalog.shown := [] |}) /\
  (Catalog.started r = true ->
   Catalog.shown r = [] /\
   fst (Catalog.validate js name price) = true /\
   thumbnail <> String.EmptyString /\
   (isEditing = true \/ (count < 5)%nat)) /\
  (isSubmitting = false -> Catalog.started r = false ->
   length (Catalog.shown r) = 1%nat) /\
  (isEditing = true ->
   forall count',
     Catalog.handleSubmit js isSubmitting name price thumbnail isEditing
       count' = r) /\
  (isEditing = false -> (5 <= count)%nat -> Catalog.started r = false).
Proof.
  cbv zeta. unfold Catalog.handleSubmit, Catalog.canAddProduct,
    Catalog.MAX_PRODUCTS.
  destruct isSubmitting.
  { repeat split; try discriminate; trivial. }
  destruct (Catalog.validate js name price) as [valid errs]; simpl fst.
  destruct valid; simpl negb; cbv iota.
  2:{ repeat split; try discriminate; trivial. }
  destruct (String.eqb_spec thumbnail String.EmptyString) as [T|T].
  { repeat split; try discriminate; trivial. }
  destruct isEditing; simpl.
  { repeat split; try discriminate; trivial; try (now left). }
  destruct (Nat.ltb_spec count 5) as [L|L]; simpl.
  - repeat split; try discriminate; trivial; try lia; try (now right).
  - repeat split; try discriminate; trivial.
Qed.

End CatalogScreen.

(** C7, counterexample.  On the default sheet, opened and then told to
    close: [open()] is called while the closing animation runs, that
    animation ends, then the timeout of [open()] and the snap it starts.
    Everything has settled, the index is 1, and the sheet is hidden. *)
Lemma open_settles_hidden_when_close_ends_first :
  let closing_sheet :=
    run screen false three_snaps
      [CallOpen; TimerFires; AnimationSettles; CallClose] (mount screen) in
  let s' := run screen false three_snaps
              [CallOpen; AnimationSettles; TimerFires; AnimationSettles]
              closing_sheet in
  (2 <= length (snapPoints three_snaps))%nat /\
  visible s' = false /\
  currentSnapIndex s' = 1%Z /\
  animation s' = None /\
  timers s' = 0%nat.
Proof. vm_compute. repeat split. lia. Qed.

(** C7 (amended) on the default sheet: from the first render, and from
    the sheet that is closing. *)
Lemma open_settles_visible_unless_close_ends_first_witness :
  let closing_sheet :=
    run screen false three_snaps
      [CallOpen; TimerFires; AnimationSettles; CallClose] (mount screen) in
  (2 <= length (snapPoints three_snaps))%nat /\
  forallb passive [AnimationFrame 700; AnimationSettles] = true /\
  visible (run screen false three_snaps
             (CallOpen :: [] ++ [TimerFires; AnimationSettles])
             (mount screen)) = true /\
  visible (run screen false three_snaps
             (CallOpen :: [AnimationFrame 700; AnimationSettles]
                ++ [TimerFires; AnimationSettles])
             closing_sheet) = false.
Proof.
  intros closing_sheet.
  assert (L : (2 <= length (snapPoints three_snaps))%nat) by (simpl; lia).
  assert (P : forallb passive [AnimationFrame 700; AnimationSettles] = true)
    by reflexivity.
  split; [exact L|]. split; [exact P|]. split.
  - destruct (open_settles_visible_unless_close_ends_first screen false
                three_snaps [] (mount screen) L eq_refl)
      as (_ & _ & _ & _ & V).
    exact V.
  - destruct (open_settles_visible_unless_close_ends_first screen false
                three_snaps [AnimationFrame 700; AnimationSettles]
                closing_sheet L P) as (_ & _ & _ & _ & V).
    exact V.
Defined.

(** ** The hypotheses of the further properties are met *)

Lemma visible_changes_only_by_open_and_closed_witness :
  visible (step screen false three_snaps CallOpen (mount screen))
  <> visible (mount screen) /\
  ((CallOpen = CallOpen /\
    visible (step screen false three_snaps CallOpen (mount screen)) = true) \/
   (CallOpen = AnimationSettles /\
    visible (step screen false three_snaps CallOpen (mount screen)) = false /\
    exists toValue, animation (mount screen) = Some (toValue, CbClose))).
Proof.
  assert (H : visible (step screen false three_snaps CallOpen (mount screen))
              <> visible (mount screen)) by discriminate.
  split; [exact H|].
  exact (visible_changes_only_by_open_and_closed screen false three_snaps
           CallOpen (mount screen) H).
Defined.

Lemma keyboard_only_resizes_witness :
  let es := [CallOpen; TimerFires; AnimationSettles; PanGrant;
             PanRelease slow_drag] in
  forallb (fun e => negb (is_keyboard e)) es = true /\
  run screen false three_snaps es
    (step screen false three_snaps (KeyboardShow 300) (mount screen))
  = setKeyboardHeight 300 (run screen false three_snaps es (mount screen)) /\
  panel_height screen
    (run screen false three_snaps es
       (step screen false three_snaps (KeyboardShow 300) (mount screen)))
  = screen - 300.
Proof.
  intros es.
  assert (H : forallb (fun e => negb (is_keyboard e)) es = true)
    by reflexivity.
  split; [exact H|].
  exact (keyboard_only_resizes screen false three_snaps es 300
           (mount screen) H).
Defined.

Lemma emitted_effects_are_allowed_witness :
  exists l,
    effects (run screen true fixed_sheet
               [CallOpen; TimerFires; AnimationSettles; PanGrant]
               (mount screen))
    = effects (mount screen) ++ l /\
    ~ In Haptic l.
Proof.
  destruct (emitted_effects_are_allowed screen true fixed_sheet
              [CallOpen; TimerFires; AnimationSettles; PanGrant]
              (mount screen)) as (l & E & W & _).
  exists l. split; [exact E|exact (W eq_refl)].
Defined.

Lemma drag_depends_on_last_move_witness :
  let opened := run screen false three_snaps
                  [CallOpen; TimerFires; AnimationSettles] (mount screen) in
  let s' := run screen false three_snaps
              (PanGrant :: map PanMove ([flick_up; pull_down] ++ [slow_drag]))
              opened in
  isPanning opened = false /\
  translateY s'
  = resisted screen three_snaps (translateY opened + dy slow_drag) /\
  lastOffset s' = translateY opened.
Proof.
  intros opened s'.
  assert (P : isPanning opened = false) by reflexivity.
  split; [exact P|].
  destruct (drag_depends_on_last_move screen false three_snaps
              [flick_up; pull_down] slow_drag opened P) as (T & L & _).
  split; [exact T|exact L].
Defined.

Lemma release_snaps_when_dismiss_disabled_witness :
  enablePanDownToClose fixed_sheet = false /\
  snapPoints fixed_sheet <> [] /\
  exists i h,
    at_index (snapHeights screen fixed_sheet) i = Some h /\
    onPanResponderRelease screen fixed_sheet (panResponder_scope screen)
      pull_down (mount screen)
    = animateTo h CbHaptic
        (setCurrentSnapIndex i (set_isPanning false (mount screen))).
Proof.
  assert (E : enablePanDownToClose fixed_sheet = false) by reflexivity.
  assert (N : snapPoints fixed_sheet <> []) by discriminate.
  split; [exact E|]. split; [exact N|].
  destruct (release_snaps_when_dismiss_disabled screen false fixed_sheet
              (panResponder_scope screen) pull_down (mount screen) E N)
    as (i & h & A & R & _).
  exists i, h. split; [exact A|exact R].
Defined.

Lemma close_settles_hidden_witness :
  enableBackdropDismiss three_snaps = true /\
  enableBackdropDismiss fixed_sheet = false /\
  visible (run screen false three_snaps [BackdropPress; AnimationSettles]
             (run screen false three_snaps
                [CallOpen; TimerFires; AnimationSettles] (mount screen)))
  = false /\
  step screen false fixed_sheet BackdropPress (mount screen) = mount screen.
Proof.
  split; [reflexivity|]. split; [reflexivity|]. split.
  - destruct (close_settles_hidden screen false three_snaps
                (run screen false three_snaps
                   [CallOpen; TimerFires; AnimationSettles] (mount screen)))
      as (_ & B & _).
    destruct (B eq_refl) as (_ & _ & _ & V & _). exact V.
  - destruct (close_settles_hidden screen false fixed_sheet (mount screen))
      as (_ & _ & B).
    exact (B eq_refl).
Defined.

Lemma close_before_open_timeout_is_lost_witness :
  let s' := run screen false three_snaps
              [CallOpen; CallClose; TimerFires; AnimationSettles]
              (mount screen) in
  (2 <= length (snapPoints three_snaps))%nat /\
  visible s' = true /\
  currentSnapIndex s' = 1%Z.
Proof.
  intros s'.
  assert (L : (2 <= length (snapPoints three_snaps))%nat) by (simpl; lia).
  split; [exact L|].
  destruct (close_before_open_timeout_is_lost screen false three_snaps
              (mount screen) L) as (V & I & _).
  split; [exact V|exact I].
Defined.

Lemma snapToIndex_settles_on_offset_witness :
  let s' := run screen false three_snaps
              [CallSnapToIndex 0; AnimationSettles] (mount screen) in
  at_index (snapHeights screen three_snaps) 0 = Some (screen * (1 - 0.3)) /\
  currentSnapIndex s' = 0%Z /\
  translateY s' = screen * (1 - 0.3) /\
  visible s' = visible (mount screen).
Proof.
  intros s'.
  assert (A : at_index (snapHeights screen three_snaps) 0
              = Some (screen * (1 - 0.3))) by reflexivity.
  split; [exact A|].
  destruct (snapToIndex_settles_on_offset screen false three_snaps 0 _
              (mount screen) A) as (I & T & _ & _ & V & _).
  split; [exact I|]. split; [exact T|exact V].
Defined.

Lemma deleteProduct_removes_every_match_witness :
  let s := {| Products.products := [Products.tea];
              Products.loading := false;
              Products.storage := None |} in
  (forall p, In p (Products.products s) ->
             Products.id p <> Products.id Products.mug) /\
  Products.products
    (Products.deleteProduct Products.sample_stringify (Products.products s)
       (Products.id Products.mug) true s)
  = Products.products s.
Proof.
  intros s.
  assert (A : forall p, In p (Products.products s) ->
                        Products.id p <> Products.id Products.mug).
  { intros p [<-|[]]. discriminate. }
  split; [exact A|].
  destruct (deleteProduct_removes_every_match Products.sample_stringify
              (Products.id Products.mug) true s) as (_ & _ & U).
  exact (U A).
Defined.

Lemma updateProduct_patches_in_place_witness :
  let s := {| Products.products := [Products.tea; Products.mug];
              Products.loading := false;
              Products.storage := None |} in
  Products.new_id Products.rename_to_chai = None /\
  map Products.id
    (Products.products
       (Products.updateProduct Products.sample_stringify
          (Products.products s) (Products.id Products.tea)
          Products.rename_to_chai true s))
  = map Products.id (Products.products s).
Proof.
  intros s. split; [reflexivity|].
  destruct (updateProduct_patches_in_place Products.sample_stringify
              (Products.id Products.tea) Products.rename_to_chai true true s)
    as (_ & K & _).
  exact (K eq_refl).
Defined.

Lemma add_then_delete_restores_witness :
  let s := {| Products.products := [Products.tea];
              Products.loading := false;
              Products.storage := None |} in
  let s1 := Products.addProduct Products.sample_stringify
              (Products.products s) Products.mug true s in
  let s2 := Products.deleteProduct Products.sample_stringify
              (Products.products s1) (Products.id Products.mug) true s1 in
  (forall q, In q (Products.products s) ->
             Products.id q <> Products.id Products.mug) /\
  Products.products s2 = Products.products s.
Proof.
  intros s s1 s2.
  assert (A : forall q, In q (Products.products s) ->
                        Products.id q <> Products.id Products.mug).
  { intros q [<-|[]]. discriminate. }
  split; [exact A|].
  exact (proj1 (add_then_delete_restores Products.sample_stringify
                  Products.mug s A)).
Defined.

Lemma additions_from_one_render_overwrite_witness :
  let s := Products.mount None in
  ~ In Products.tea [] /\
  Products.tea <> Products.mug /\
  ~ In Products.tea
      (Products.products
         (Products.addProduct Products.sample_stringify [] Products.mug true
            (Products.addProduct Products.sample_stringify [] Products.tea
               true s))).
Proof.
  intros s.
  assert (A : ~ In Products.tea []) by (intros []).
  assert (B : Products.tea <> Products.mug) by discriminate.
  split; [exact A|]. split; [exact B|].
  destruct (additions_from_one_render_overwrite Products.sample_stringify
              [] Products.tea Products.mug true s) as (_ & _ & K & _).
  exact (K A B).
Defined.

Lemma saved_list_is_reloaded_witness :
  let l := [Products.tea; Products.mug] in
  Products.sample_parse (Products.sample_stringify l) = Returns l /\
  Products.sample_stringify l <> String.EmptyString /\
  Products.products
    (Products.load Products.sample_parse true
       (Products.mount
          (Products.storage
             (Products.saveProducts Products.sample_stringify l true
                (Products.mount None)))))
  = l.
Proof.
  intros l.
  assert (A : Products.sample_parse (Products.sample_stringify l) = Returns l)
    by reflexivity.
  assert (B : Products.sample_stringify l <> String.EmptyString)
    by discriminate.
  split; [exact A|]. split; [exact B|].
  exact (proj1 (saved_list_is_reloaded Products.sample_stringify
                  Products.sample_parse l (Products.mount None) A B)).
Defined.

Lemma load_always_finishes_witness :
  let text := Products.sample_stringify [] in
  let s := Products.mount (Some text) in
  text <> String.EmptyString /\
  Products.sample_parse text = Returns [Products.tea; Products.mug] /\
  Products.products (Products.load Products.sample_parse true s)
  = [Products.tea; Products.mug] /\
  Products.products
    (Products.load Products.sample_parse false s) = Products.products s.
Proof.
  intros text s.
  assert (NE : text <> String.EmptyString) by discriminate.
  assert (Pa : Products.sample_parse text
               = Returns [Products.tea; Products.mug]) by reflexivity.
  split; [exact NE|]. split; [exact Pa|].
  destruct (load_always_finishes Products.sample_parse true s)
    as (_ & _ & Loads & _).
  destruct (load_always_finishes Products.sample_parse false s)
    as (_ & _ & _ & Keeps).
  split; [exact (Loads text _ eq_refl eq_refl NE Pa)|].
  apply Keeps. now left.
Defined.

Lemma search_filter_keeps_to_the_list_witness :
  let query := String.EmptyString in
  Catalog.trim Catalog.sample_js query = String.EmptyString /\
  Catalog.filter Catalog.sample_js [Products.tea; Products.mug] query
  = [Products.tea; Products.mug].
Proof.
  intros query. split; [reflexivity|].
  destruct (search_filter_keeps_to_the_list Catalog.sample_js
              [Products.tea; Products.mug] [] query query) as (K & _).
  exact (K eq_refl).
Defined.

Lemma handleSubmit_guards_witness :
  let r := Catalog.handleSubmit Catalog.sample_js false
             (Products.name Products.tea) (Products.name Products.tea)
             (Products.thumbnail Products.tea) false 5 in
  false = false /\ (5 <= 5)%nat /\
  Catalog.started r = false /\
  length (Catalog.shown r) = 1%nat.
Proof.
  intros r.
  destruct (handleSubmit_guards Catalog.sample_js false false
              (Products.name Products.tea) (Products.name Products.tea)
              (Products.thumbnail Products.tea) 5)
    as (_ & _ & One & _ & Limit).
  assert (S : Catalog.started r = false) by (apply Limit; [reflexivity|lia]).
  split; [reflexivity|]. split; [lia|]. split; [exact S|].
  exact (One eq_refl S).
Defined.

(** ** The arithmetic of the sheet on binary64 numbers: properties *)

Module Binary64Facts.
Import Floats.
Import Binary64.
Local Open Scope float_scope.
#[local] Set Warnings "-inexact-float".

(** *** The order of binary64 numbers *)










(** *** The nearest-snap loop in binary64 *)









(** *** The offsets computed from the fractions *)





End Binary64Facts.
